(** * Invoice-Generator: the composer of [app.py], embedded and verified

    The development follows [src/app.py]:
    - the language dictionaries [LANGUAGES];
    - [reshape_if_arabic], the Arabic shaping helper;
    - [create_modern_invoice_pdf], which builds the ReportLab story (header,
      parties, item table with totals, terms) that [doc.build] serialises;
    - the download branch of [main], its list of items, and
      [get_pdf_iframe].

    Python values are modelled as the program has them: [str] as the list of
    its code points, [int] as [Z], [float] as IEEE binary64 (Rocq's primitive
    floats), dictionaries as [gmap], exceptions as an error monad.  The
    libraries the program calls but does not contain (arabic_reshaper,
    python-bidi, the shortest-repr printer of floats behind [str(float)])
    are section variables.  ReportLab is not modelled: the objects the
    composer creates are kept as data, the checks that ReportLab makes of a
    colour, of markup and of an image are left out, and so is [doc.build];
    the composer's result is the story handed to it. *)

From Stdlib Require Import ZArith NArith List String Ascii Lia Bool.
From Stdlib Require Import PrimFloat SpecFloat FloatOps DecimalString.
From Stdlib Require DecimalPos DecimalZ.
From stdpp Require Import gmap strings.
Import ListNotations.

Set Default Proof Using "Type".
#[local] Set Warnings "-inexact-float".

(* ===================================================================== *)
(** * Python builtins used by the program *)
(* ===================================================================== *)

Module Py.

(** ** Exceptions

    The only exceptions the composer can raise by itself: a dictionary lookup
    [d[k]] on a missing key, and the conversion of an [int] too large for a
    [float] in [int * float]. *)
Inductive exn : Type :=
  | KeyError (key : string)
  | OverflowError.

Inductive result (A : Type) : Type :=
  | Ok (a : A)
  | Raise (e : exn).
Arguments Ok {A} a.
Arguments Raise {A} e.

#[export] Instance result_ret : MRet result := fun A a => Ok a.
#[export] Instance result_bind : MBind result := fun A B f m =>
  match m with
  | Ok a => f a
  | Raise e => Raise e
  end.

(** ** Strings

    A Python [str] is a sequence of Unicode code points. *)
Definition pystr : Type := list N.

(** Literals are written as Rocq strings, whose bytes are the UTF-8 encoding
    of the text; [utf8_decode] gives the code points back. *)
Fixpoint utf8_decode (bs : list N) : pystr :=
  match bs with
  | [] => []
  | b0 :: r0 =>
    if (b0 <? 128)%N then b0 :: utf8_decode r0
    else
      match r0 with
      | [] => []
      | b1 :: r1 =>
        if (b0 <? 224)%N then
          ((b0 - 192) * 64 + (b1 - 128))%N :: utf8_decode r1
        else
          match r1 with
          | [] => []
          | b2 :: r2 =>
            if (b0 <? 240)%N then
              ((b0 - 224) * 4096 + (b1 - 128) * 64 + (b2 - 128))%N
                :: utf8_decode r2
            else
              match r2 with
              | [] => []
              | b3 :: r3 =>
                ((b0 - 240) * 262144 + (b1 - 128) * 4096
                 + (b2 - 128) * 64 + (b3 - 128))%N :: utf8_decode r3
              end
          end
      end
  end.

Definition u (s : string) : pystr :=
  utf8_decode (map N_of_ascii (list_ascii_of_string s)).

(** The double quote and the line break of the program's f-strings. *)
Definition dq : pystr := [34%N].
Definition nl : pystr := [10%N].

(** [str.isspace] on one code point (CPython's [_PyUnicode_IsWhitespace]). *)
Definition isspace (c : N) : bool :=
  ((9 <=? c) && (c <=? 13) || (28 <=? c) && (c <=? 32)
   || (c =? 133) || (c =? 160) || (c =? 5760)
   || (8192 <=? c) && (c <=? 8202)
   || (c =? 8232) || (c =? 8233) || (c =? 8239) || (c =? 8287)
   || (c =? 12288))%N.

Fixpoint lstrip (s : pystr) : pystr :=
  match s with
  | [] => []
  | c :: r => if isspace c then lstrip r else s
  end.

Definition rstrip (s : pystr) : pystr := rev (lstrip (rev s)).

(** [str.strip()] with no argument. *)
Definition strip (s : pystr) : pystr := rstrip (lstrip s).

(** Truth value of a string in a condition: non-empty. *)
Definition truthy (s : pystr) : bool :=
  match s with
  | [] => false
  | _ :: _ => true
  end.

(** [str.upper] replaces every code point by its upper case, whatever its
    neighbours: the full upper-case mapping of Unicode (version 14.0, the
    one of CPython 3.11: the simple mappings of UnicodeData.txt and the
    unconditional ones of SpecialCasing.txt).

    [upper_simple] lists the code points whose upper case is one code point,
    in runs [(first, last, step, image)]: [first] maps to [image], and
    [first + step], [first + 2 * step], ..., [last] map to the code points
    at the same distance from [image]. *)
Definition upper_simple : list (N * N * N * N) :=
  [(97, 122, 1, 65); (181, 181, 1, 924); (224, 246, 1, 192);
   (248, 254, 1, 216); (255, 255, 1, 376); (257, 303, 2, 256);
   (305, 305, 1, 73); (307, 311, 2, 306); (314, 328, 2, 313);
   (331, 375, 2, 330); (378, 382, 2, 377); (383, 383, 1, 83);
   (384, 384, 1, 579); (387, 389, 2, 386); (392, 392, 1, 391);
   (396, 396, 1, 395); (402, 402, 1, 401); (405, 405, 1, 502);
   (409, 409, 1, 408); (410, 410, 1, 573); (414, 414, 1, 544);
   (417, 421, 2, 416); (424, 424, 1, 423); (429, 429, 1, 428);
   (432, 432, 1, 431); (436, 438, 2, 435); (441, 441, 1, 440);
   (445, 445, 1, 444); (447, 447, 1, 503); (453, 453, 1, 452);
   (454, 454, 1, 452); (456, 456, 1, 455); (457, 457, 1, 455);
   (459, 459, 1, 458); (460, 460, 1, 458); (462, 476, 2, 461);
   (477, 477, 1, 398); (479, 495, 2, 478); (498, 498, 1, 497);
   (499, 499, 1, 497); (501, 501, 1, 500); (505, 543, 2, 504);
   (547, 563, 2, 546); (572, 572, 1, 571); (575, 576, 1, 11390);
   (578, 578, 1, 577); (583, 591, 2, 582); (592, 592, 1, 11375);
   (593, 593, 1, 11373); (594, 594, 1, 11376); (595, 595, 1, 385);
   (596, 596, 1, 390); (598, 599, 1, 393); (601, 601, 1, 399);
   (603, 603, 1, 400); (604, 604, 1, 42923); (608, 608, 1, 403);
   (609, 609, 1, 42924); (611, 611, 1, 404); (613, 613, 1, 42893);
   (614, 614, 1, 42922); (616, 616, 1, 407); (617, 617, 1, 406);
   (618, 618, 1, 42926); (619, 619, 1, 11362); (620, 620, 1, 42925);
   (623, 623, 1, 412); (625, 625, 1, 11374); (626, 626, 1, 413);
   (629, 629, 1, 415); (637, 637, 1, 11364); (640, 640, 1, 422);
   (642, 642, 1, 42949); (643, 643, 1, 425); (647, 647, 1, 42929);
   (648, 648, 1, 430); (649, 649, 1, 580); (650, 651, 1, 433);
   (652, 652, 1, 581); (658, 658, 1, 439); (669, 669, 1, 42930);
   (670, 670, 1, 42928); (837, 837, 1, 921); (881, 883, 2, 880);
   (887, 887, 1, 886); (891, 893, 1, 1021); (940, 940, 1, 902);
   (941, 943, 1, 904); (945, 961, 1, 913); (962, 962, 1, 931);
   (963, 971, 1, 931); (972, 972, 1, 908); (973, 974, 1, 910);
   (976, 976, 1, 914); (977, 977, 1, 920); (981, 981, 1, 934);
   (982, 982, 1, 928); (983, 983, 1, 975); (985, 1007, 2, 984);
   (1008, 1008, 1, 922); (1009, 1009, 1, 929); (1010, 1010, 1, 1017);
   (1011, 1011, 1, 895); (1013, 1013, 1, 917); (1016, 1016, 1, 1015);
   (1019, 1019, 1, 1018); (1072, 1103, 1, 1040); (1104, 1119, 1, 1024);
   (1121, 1153, 2, 1120); (1163, 1215, 2, 1162); (1218, 1230, 2, 1217);
   (1231, 1231, 1, 1216); (1233, 1327, 2, 1232); (1377, 1414, 1, 1329);
   (4304, 4346, 1, 7312); (4349, 4351, 1, 7357); (5112, 5117, 1, 5104);
   (7296, 7296, 1, 1042); (7297, 7297, 1, 1044); (7298, 7298, 1, 1054);
   (7299, 7300, 1, 1057); (7301, 7301, 1, 1058); (7302, 7302, 1, 1066);
   (7303, 7303, 1, 1122); (7304, 7304, 1, 42570); (7545, 7545, 1, 42877);
   (7549, 7549, 1, 11363); (7566, 7566, 1, 42950); (7681, 7829, 2, 7680);
   (7835, 7835, 1, 7776); (7841, 7935, 2, 7840); (7936, 7943, 1, 7944);
   (7952, 7957, 1, 7960); (7968, 7975, 1, 7976); (7984, 7991, 1, 7992);
   (8000, 8005, 1, 8008); (8017, 8023, 2, 8025); (8032, 8039, 1, 8040);
   (8048, 8049, 1, 8122); (8050, 8053, 1, 8136); (8054, 8055, 1, 8154);
   (8056, 8057, 1, 8184); (8058, 8059, 1, 8170); (8060, 8061, 1, 8186);
   (8112, 8113, 1, 8120); (8126, 8126, 1, 921); (8144, 8145, 1, 8152);
   (8160, 8161, 1, 8168); (8165, 8165, 1, 8172); (8526, 8526, 1, 8498);
   (8560, 8575, 1, 8544); (8580, 8580, 1, 8579); (9424, 9449, 1, 9398);
   (11312, 11359, 1, 11264); (11361, 11361, 1, 11360); (11365, 11365, 1, 570);
   (11366, 11366, 1, 574); (11368, 11372, 2, 11367); (11379, 11379, 1, 11378);
   (11382, 11382, 1, 11381); (11393, 11491, 2, 11392);
   (11500, 11502, 2, 11499); (11507, 11507, 1, 11506);
   (11520, 11557, 1, 4256); (11559, 11559, 1, 4295); (11565, 11565, 1, 4301);
   (42561, 42605, 2, 42560); (42625, 42651, 2, 42624);
   (42787, 42799, 2, 42786); (42803, 42863, 2, 42802);
   (42874, 42876, 2, 42873); (42879, 42887, 2, 42878);
   (42892, 42892, 1, 42891); (42897, 42899, 2, 42896);
   (42900, 42900, 1, 42948); (42903, 42921, 2, 42902);
   (42933, 42947, 2, 42932); (42952, 42954, 2, 42951);
   (42961, 42961, 1, 42960); (42967, 42969, 2, 42966);
   (42998, 42998, 1, 42997); (43859, 43859, 1, 42931);
   (43888, 43967, 1, 5024); (65345, 65370, 1, 65313);
   (66600, 66639, 1, 66560); (66776, 66811, 1, 66736);
   (66967, 66977, 1, 66928); (66979, 66993, 1, 66940);
   (66995, 67001, 1, 66956); (67003, 67004, 1, 66964);
   (68800, 68850, 1, 68736); (71872, 71903, 1, 71840);
   (93792, 93823, 1, 93760); (125218, 125251, 1, 125184)]%N.

(** The code points whose upper case is made of several code points. *)
Definition upper_special : list (N * pystr) :=
  [(223, [83; 83]); (329, [700; 78]); (496, [74; 780]);
   (912, [921; 776; 769]); (944, [933; 776; 769]); (1415, [1333; 1362]);
   (7830, [72; 817]); (7831, [84; 776]); (7832, [87; 778]); (7833, [89; 778]);
   (7834, [65; 702]); (8016, [933; 787]); (8018, [933; 787; 768]);
   (8020, [933; 787; 769]); (8022, [933; 787; 834]); (8064, [7944; 921]);
   (8065, [7945; 921]); (8066, [7946; 921]); (8067, [7947; 921]);
   (8068, [7948; 921]); (8069, [7949; 921]); (8070, [7950; 921]);
   (8071, [7951; 921]); (8072, [7944; 921]); (8073, [7945; 921]);
   (8074, [7946; 921]); (8075, [7947; 921]); (8076, [7948; 921]);
   (8077, [7949; 921]); (8078, [7950; 921]); (8079, [7951; 921]);
   (8080, [7976; 921]); (8081, [7977; 921]); (8082, [7978; 921]);
   (8083, [7979; 921]); (8084, [7980; 921]); (8085, [7981; 921]);
   (8086, [7982; 921]); (8087, [7983; 921]); (8088, [7976; 921]);
   (8089, [7977; 921]); (8090, [7978; 921]); (8091, [7979; 921]);
   (8092, [7980; 921]); (8093, [7981; 921]); (8094, [7982; 921]);
   (8095, [7983; 921]); (8096, [8040; 921]); (8097, [8041; 921]);
   (8098, [8042; 921]); (8099, [8043; 921]); (8100, [8044; 921]);
   (8101, [8045; 921]); (8102, [8046; 921]); (8103, [8047; 921]);
   (8104, [8040; 921]); (8105, [8041; 921]); (8106, [8042; 921]);
   (8107, [8043; 921]); (8108, [8044; 921]); (8109, [8045; 921]);
   (8110, [8046; 921]); (8111, [8047; 921]); (8114, [8122; 921]);
   (8115, [913; 921]); (8116, [902; 921]); (8118, [913; 834]);
   (8119, [913; 834; 921]); (8124, [913; 921]); (8130, [8138; 921]);
   (8131, [919; 921]); (8132, [905; 921]); (8134, [919; 834]);
   (8135, [919; 834; 921]); (8140, [919; 921]); (8146, [921; 776; 768]);
   (8147, [921; 776; 769]); (8150, [921; 834]); (8151, [921; 776; 834]);
   (8162, [933; 776; 768]); (8163, [933; 776; 769]); (8164, [929; 787]);
   (8166, [933; 834]); (8167, [933; 776; 834]); (8178, [8186; 921]);
   (8179, [937; 921]); (8180, [911; 921]); (8182, [937; 834]);
   (8183, [937; 834; 921]); (8188, [937; 921]); (64256, [70; 70]);
   (64257, [70; 73]); (64258, [70; 76]); (64259, [70; 70; 73]);
   (64260, [70; 70; 76]); (64261, [83; 84]); (64262, [83; 84]);
   (64275, [1348; 1350]); (64276, [1348; 1333]); (64277, [1348; 1339]);
   (64278, [1358; 1350]); (64279, [1348; 1341])]%N.

Definition in_run (c : N) (r : N * N * N * N) : bool :=
  let '(first, last, step, _) := r in
  ((first <=? c) && (c <=? last) && ((c - first) mod step =? 0))%N.

(** [str.upper] on one code point; a code point in neither table is left as
    it is. *)
Definition upper_cp (c : N) : pystr :=
  match find (fun p => (p.1 =? c)%N) upper_special with
  | Some (_, s) => s
  | None =>
    match find (in_run c) upper_simple with
    | Some (first, _, _, image) => [(image + (c - first))%N]
    | None => [c]
    end
  end.

Definition upper (s : pystr) : pystr := concat (map upper_cp s).

(** Code points of scripts without case, those that the "ar" dictionary
    and its shaped forms are made of: Arabic (U+0600-U+06FF), the Arabic
    presentation forms A and B (U+FB50-U+FDFF, U+FE70-U+FEFF), and the ASCII
    characters other than the small letters. *)
Definition arabic_or_caseless (c : N) : bool :=
  ((c <? 97) || (122 <? c) && (c <? 128)
   || (1536 <=? c) && (c <=? 1791)
   || (64336 <=? c) && (c <=? 65023)
   || (65136 <=? c) && (c <=? 65279))%N.

(** ** Integers *)

(** [str(n)] for an [int]. *)
Definition str_int (z : Z) : pystr :=
  map N_of_ascii (list_ascii_of_string (NilZero.string_of_int (Z.to_int z))).

(** Two decimal digits, as [%d], [%m], [%H] and [%M] print them. *)
Definition pad2 (n : N) : pystr := [48 + n / 10; 48 + n mod 10]%N.

(** ** Floats *)

(** The [int] to [float] conversion of a mixed product [int * float]:
    correctly rounded (ties to even), [OverflowError] when the integer rounds
    beyond the largest finite double. *)
Definition float_of_int (z : Z) : result float :=
  match binary_normalize prec emax z 0 false with
  | S754_infinity _ => Raise OverflowError
  | sf => Ok (SF2Prim sf)
  end.

(** Division of [num >= 0] by [den > 0], rounded to the nearest integer, ties
    to the even one. *)
Definition round_half_even (num den : Z) : Z :=
  let q := (num / den)%Z in
  let r := (num mod den)%Z in
  if (2 * r <? den)%Z then q
  else if (den <? 2 * r)%Z then (q + 1)%Z
  else if Z.even q then q else (q + 1)%Z.

(** The number of hundredths nearest to [m * 2^e]. *)
Definition hundredths (m : positive) (e : Z) : Z :=
  if (0 <=? e)%Z then (100 * Z.pos m * 2 ^ e)%Z
  else round_half_even (100 * Z.pos m) (2 ^ (- e)).

(** [n] hundredths printed with two fractional digits. *)
Definition fixed2 (n : Z) : pystr :=
  str_int (n / 100) ++ [46%N]
    ++ [(48 + Z.to_N ((n mod 100) / 10))%N; (48 + Z.to_N (n mod 10))%N].

Definition sign_str (s : bool) : pystr := if s then [45%N] else [].

(** [f"{x:.2f}"]: the exact binary value of [x], correctly rounded to two
    fractional digits (CPython's [PyOS_double_to_string], mode 3 of [dtoa]:
    round-half-even on the exact value). *)
Definition format_2f (x : float) : pystr :=
  match Prim2SF x with
  | S754_nan => u "nan"
  | S754_infinity s => sign_str s ++ u "inf"
  | S754_zero s => sign_str s ++ u "0.00"
  | S754_finite s m e => sign_str s ++ fixed2 (hundredths m e)
  end.

End Py.
Import Py.


(* ===================================================================== *)
(** * Data model *)
(* ===================================================================== *)

(** ** The language dictionaries (section 2 of the program) *)

Definition LANGUAGES : gmap string (gmap string pystr) :=
  list_to_map [
    ("en"%string, list_to_map [
      ("document_type_label"%string, u "Document Type");
      ("invoice"%string, u "Invoice");
      ("quote"%string, u "Quote");
      ("number"%string, u "Number");
      ("date"%string, u "Date");
      ("due_date"%string, u "Due Date");
      ("from"%string, u "From");
      ("to"%string, u "To");
      ("tax_id"%string, u "Tax ID");
      ("mobile"%string, u "Mobile");
      ("email"%string, u "Email");
      ("details"%string, u "Details");
      ("description"%string, u "Description");
      ("quantity"%string, u "Quantity");
      ("unit_price"%string, u "Unit Price");
      ("vat_rate"%string, u "VAT (%)");
      ("vat_amount"%string, u "VAT Amount");
      ("total"%string, u "Total");
      ("subtotal"%string, u "Subtotal");
      ("total_vat"%string, u "Total VAT");
      ("payment_terms"%string, u "Payment Terms");
      ("delivery_terms"%string, u "Delivery Terms");
      ("accept_checks"%string, u "Accept Checks?");
      ("services_products"%string, u "Services / Products");
      ("add"%string, u "Add");
      ("remove"%string, u "Remove");
      ("download"%string, u "Download");
      ("supplier_info"%string, u "Supplier Information (From)");
      ("customer_info"%string, u "Customer Information (To)");
      ("document_info"%string, u "Document Information");
      ("additional_info"%string, u "Additional Information")
    ]);
    ("fr"%string, list_to_map [
      ("document_type_label"%string, u "Type de Document");
      ("invoice"%string, u "Facture");
      ("quote"%string, u "Devis");
      ("number"%string, u "Numéro");
      ("date"%string, u "Date");
      ("due_date"%string, u "Date d’échéance");
      ("from"%string, u "De");
      ("to"%string, u "A");
      ("tax_id"%string, u "Identifiant Fiscal");
      ("mobile"%string, u "Mobile");
      ("email"%string, u "Email");
      ("details"%string, u "Détails");
      ("description"%string, u "Description");
      ("quantity"%string, u "Quantité");
      ("unit_price"%string, u "Prix Unitaire");
      ("vat_rate"%string, u "TVA (%)");
      ("vat_amount"%string, u "Montant TVA");
      ("total"%string, u "Total");
      ("subtotal"%string, u "Sous Total");
      ("total_vat"%string, u "TVA");
      ("payment_terms"%string, u "Conditions de Paiement");
      ("delivery_terms"%string, u "Conditions de Livraison");
      ("accept_checks"%string, u "Accepter les chèques ?");
      ("services_products"%string, u "Services / Produits");
      ("add"%string, u "Ajouter");
      ("remove"%string, u "Supprimer");
      ("download"%string, u "Télécharger");
      ("supplier_info"%string, u "Informations Fournisseur (De)");
      ("customer_info"%string, u "Informations Client (A)");
      ("document_info"%string, u "Informations du Document");
      ("additional_info"%string, u "Informations Supplémentaires")
    ]);
    ("ar"%string, list_to_map [
      ("document_type_label"%string, u "نوع المستند");
      ("invoice"%string, u "فاتورة");
      ("quote"%string, u "عرض سعر");
      ("number"%string, u "الرقم");
      ("date"%string, u "التاريخ");
      ("due_date"%string, u "تاريخ الاستحقاق");
      ("from"%string, u "من");
      ("to"%string, u "إلى");
      ("tax_id"%string, u "الرقم الضريبي");
      ("mobile"%string, u "رقم الجوال");
      ("email"%string, u "البريد الإلكتروني");
      ("details"%string, u "التفاصيل");
      ("description"%string, u "الوصف");
      ("quantity"%string, u "الكمية");
      ("unit_price"%string, u "سعر الوحدة");
      ("vat_rate"%string, u "نسبة الضريبة");
      ("vat_amount"%string, u "مبلغ الضريبة");
      ("total"%string, u "الإجمالي");
      ("subtotal"%string, u "الإجمالي الفرعي");
      ("total_vat"%string, u "مجموع الضريبة");
      ("payment_terms"%string, u "شروط الدفع");
      ("delivery_terms"%string, u "شروط التسليم");
      ("accept_checks"%string, u "قبول الشيكات؟");
      ("services_products"%string, u "الخدمات / المنتجات");
      ("add"%string, u "إضافة");
      ("remove"%string, u "إزالة");
      ("download"%string, u "تحميل");
      ("supplier_info"%string, u "معلومات المورد (من)");
      ("customer_info"%string, u "معلومات العميل (إلى)");
      ("document_info"%string, u "معلومات المستند");
      ("additional_info"%string, u "معلومات إضافية")
    ])
  ].

(** [d[k]]: the value, or [KeyError]. *)
Definition getitem {V : Type} (d : gmap string V) (k : string) : result V :=
  match d !! k with
  | Some v => Ok v
  | None => Raise (KeyError k)
  end.

(** Lines 136-140: the document types that each language offers, taken from
    its dictionary when the module is loaded. *)
Definition DOC_TYPE_OPTIONS : result (gmap string (list pystr)) :=
  en ← getitem LANGUAGES "en";
  en_invoice ← getitem en "invoice";
  en_quote ← getitem en "quote";
  fr ← getitem LANGUAGES "fr";
  fr_invoice ← getitem fr "invoice";
  fr_quote ← getitem fr "quote";
  ar ← getitem LANGUAGES "ar";
  ar_invoice ← getitem ar "invoice";
  ar_quote ← getitem ar "quote";
  mret (list_to_map [("en"%string, [en_invoice; en_quote]);
                     ("fr"%string, [fr_invoice; fr_quote]);
                     ("ar"%string, [ar_invoice; ar_quote])]).

(** [DOC_TYPE_OPTIONS[lang_choice]], the choices of the selector of the
    document type (line 406). *)
Definition doc_type_options (lang_choice : string) : result (list pystr) :=
  options ← DOC_TYPE_OPTIONS;
  getitem options lang_choice.

(** The languages of the selector of [main]. *)
Definition supported_languages : list string :=
  ["en"%string; "fr"%string; "ar"%string].

(** The label keys as the specification enumerates them for the composer. *)
Definition spec_label_keys : list string :=
  ["document_type"; "number"; "date"; "due_date"; "from"; "to"; "tax_id";
   "mobile"; "email"; "details"; "description"; "quantity"; "unit_price";
   "vat_rate"; "vat_amount"; "total"; "subtotal"; "total_vat";
   "payment_terms"; "delivery_terms"; "accept_checks";
   "services_products"]%string.

(** The same keys, with the document-type label under the name the
    dictionaries give it. *)
Definition label_keys : list string :=
  ["document_type_label"; "number"; "date"; "due_date"; "from"; "to";
   "tax_id"; "mobile"; "email"; "details"; "description"; "quantity";
   "unit_price"; "vat_rate"; "vat_amount"; "total"; "subtotal"; "total_vat";
   "payment_terms"; "delivery_terms"; "accept_checks";
   "services_products"]%string.

(** [lang] has a dictionary in which [key] maps to a non-empty string. *)
Definition has_label (lang key : string) : bool :=
  match LANGUAGES !! lang with
  | Some d =>
    match d !! key with
    | Some v => truthy v
    | None => false
    end
  | None => false
  end.

(** ** Dates and the clock *)

Record date : Type := { year : N; month : N; day : N }.

(** A reading of [datetime.now()]. *)
Record datetime : Type := {
  today : date; hour : N; minute : N; second : N; microsecond : N
}.

(** [d.strftime("%d/%m/%Y")] ([%Y] as glibc prints it, without padding:
    four digits from the year 1000 on). *)
Definition strftime_dmY (d : date) : pystr :=
  pad2 (day d) ++ u "/" ++ pad2 (month d) ++ u "/" ++ str_int (Z.of_N (year d)).

(** [t.strftime('%H:%M')]. *)
Definition strftime_HM (t : datetime) : pystr :=
  pad2 (hour t) ++ u ":" ++ pad2 (minute t).

(** ** The document record and its line items *)

(** The content of an uploaded logo file. *)
Definition uploaded_file : Type := list N.

(** The [data] dictionary that [main] builds (fixed keys, hence a record). *)
Record invoice_data : Type := {
  doc_type : pystr;
  supplier_name : pystr;
  supplier_address : pystr;
  supplier_tax_id : pystr;
  supplier_mobile : pystr;
  supplier_email : pystr;
  logo : option uploaded_file;
  customer_name : pystr;
  customer_address : pystr;
  invoice_number : pystr;
  invoice_date : option date;
  invoice_due_date : option date;
  payment_terms : pystr;
  delivery_terms : pystr;
  accept_checks : bool
}.

(** One entry of [st.session_state["items"]]. *)
Record item : Type := {
  description : pystr;
  quantity : Z;
  unit_price : float;
  vat_rate : float
}.

(** ** ReportLab objects the composer creates *)

Inductive color : Type :=
  | HexColor (hex : pystr)
  | whitesmoke.

Inductive halign : Type := LEFT | CENTER | RIGHT.
Inductive valign : Type := TOP.

(** A cell coordinate [(column, row)]; negative numbers count from the end. *)
Definition coord : Type := (Z * Z)%type.

(** The commands of a [TableStyle], each over the block of cells from its
    first coordinate to its second. *)
Inductive style_cmd : Type :=
  | ALIGN (sc ec : coord) (a : halign)
  | VALIGN (sc ec : coord) (a : valign)
  | BOTTOMPADDING (sc ec : coord) (points : Z)
  | BACKGROUND (sc ec : coord) (c : color)
  | TEXTCOLOR (sc ec : coord) (c : color)
  | FONTNAME (sc ec : coord) (name : string)
  | FONTSIZE (sc ec : coord) (points : Z)
  | GRID (sc ec : coord) (weight : float) (c : color)
  | LINEABOVE (sc ec : coord) (weight : Z) (c : color).

Record ParagraphStyle : Type := {
  name : string;
  parent : string;
  fontName : string;
  fontSize : option Z;
  textColor : option color;
  spaceAfter : option Z
}.

Inductive cell : Type :=
  | CStr (s : pystr)
  | CParagraph (text : pystr) (style : ParagraphStyle)
  | CImage (file : uploaded_file) (drawWidth drawHeight : float).

Inductive flowable : Type :=
  | Table (data : list (list cell)) (colWidths : option (list float))
          (repeatRows : nat) (style : list style_cmd)
  | Spacer (width height : Z)
  | Paragraph (text : pystr) (style : ParagraphStyle).

(** ReportLab's units and page geometry ([reportlab.lib.units],
    [reportlab.lib.pagesizes]): [inch = 72.0], [cm = inch / 2.54],
    [mm = cm * 0.1], [A4 = (210 mm, 297 mm)]; the frame width [doc.width] of
    the [SimpleDocTemplate] is the page width minus the left and right
    margins, 15 mm each in the program. *)
Definition inch : float := 72.
Definition mm : float := (inch / 2.54) * 0.1.
Definition A4_width : float := 210 * mm.
Definition doc_width : float := A4_width - 15 * mm - 15 * mm.

(** ReportLab's reading of a cell coordinate: a negative index counts from
    the end, that is, the number of columns or rows is added to it. *)
Definition resolve (n i : Z) : Z := if (i <? 0)%Z then (i + n)%Z else i.

(** Whether the cell [(c, r)] of a table of [ncols] columns and [nrows] rows
    lies in the block of a command. *)
Definition cmd_block (cmd : style_cmd) : coord * coord :=
  match cmd with
  | ALIGN sc ec _ | VALIGN sc ec _ | BOTTOMPADDING sc ec _
  | BACKGROUND sc ec _ | TEXTCOLOR sc ec _ | FONTNAME sc ec _
  | FONTSIZE sc ec _ | GRID sc ec _ _ | LINEABOVE sc ec _ _ => (sc, ec)
  end.

Definition covers (ncols nrows : Z) (cmd : style_cmd) (c r : Z) : bool :=
  let '((sc, sr), (ec, er)) := cmd_block cmd in
  ((resolve ncols sc <=? c) && (c <=? resolve ncols ec)
   && (resolve nrows sr <=? r) && (r <=? resolve nrows er))%Z.

(** What a style gives the cell [(c, r)]: grid lines, and the colour of its
    background, of its text and of a line above it (the last command that
    sets it wins, as ReportLab applies the commands in order). *)
Definition has_grid (ncols nrows : Z) (style : list style_cmd) (c r : Z)
  : bool :=
  existsb (fun cmd =>
             match cmd with
             | GRID _ _ _ _ => covers ncols nrows cmd c r
             | _ => false
             end) style.

Definition background_of (ncols nrows : Z) (style : list style_cmd) (c r : Z)
  : option color :=
  fold_left (fun acc cmd =>
               match cmd with
               | BACKGROUND _ _ col =>
                 if covers ncols nrows cmd c r then Some col else acc
               | _ => acc
               end) style None.

Definition textcolor_of (ncols nrows : Z) (style : list style_cmd) (c r : Z)
  : option color :=
  fold_left (fun acc cmd =>
               match cmd with
               | TEXTCOLOR _ _ col =>
                 if covers ncols nrows cmd c r then Some col else acc
               | _ => acc
               end) style None.

Definition lineabove_of (ncols nrows : Z) (style : list style_cmd) (c r : Z)
  : option color :=
  fold_left (fun acc cmd =>
               match cmd with
               | LINEABOVE _ _ _ col =>
                 if covers ncols nrows cmd c r then Some col else acc
               | _ => acc
               end) style None.

(* ===================================================================== *)
(** * The program *)
(* ===================================================================== *)

Section Composer.

(** [arabic_reshaper.reshape], [bidi.algorithm.get_display] and [str] on a
    [float] (as the f-string of the VAT-rate cell calls it). *)
Variable reshape : pystr -> pystr.
Variable get_display : pystr -> pystr.
Variable str_float : float -> pystr.

(** ** Section 3 of the program: the shaping helper *)

Definition reshape_if_arabic (text : pystr) (lang : string) : pystr :=
  if (lang =? "ar")%string && truthy (strip text) then
    let reshaped_text := reshape text in
    get_display reshaped_text
  else text.

(** [reshape_if_arabic(lang_dict[key], lang_choice)]. *)
Definition label (lang_dict : gmap string pystr) (lang_choice key : string)
  : result pystr :=
  v ← getitem lang_dict key;
  mret (reshape_if_arabic v lang_choice).

(** ** Section 4 of the program: the story of [create_modern_invoice_pdf] *)

Definition font_name (lang_choice : string) : string :=
  if (lang_choice =? "ar")%string then "Amiri"%string else "Helvetica"%string.

Definition CustomTitle (primary_color : pystr) (lang_choice : string)
  : ParagraphStyle :=
  {| name := "CustomTitle"; parent := "Title";
     fontName := font_name lang_choice; fontSize := Some 24%Z;
     textColor := Some (HexColor primary_color); spaceAfter := Some 30%Z |}.

Definition SubHeading (primary_color : pystr) (lang_choice : string)
  : ParagraphStyle :=
  {| name := "SubHeading"; parent := "Heading2";
     fontName := font_name lang_choice; fontSize := Some 14%Z;
     textColor := Some (HexColor primary_color); spaceAfter := Some 10%Z |}.

Definition NormalArabic (lang_choice : string) : ParagraphStyle :=
  {| name := "NormalArabic"; parent := "Normal";
     fontName := font_name lang_choice; fontSize := None;
     textColor := None; spaceAfter := None |}.

(** The date of the document followed by the time of the call. *)
Definition date_time_str (now : datetime) (data : invoice_data) : pystr :=
  let date_str :=
    match invoice_date data with
    | Some d => strftime_dmY d
    | None => []
    end in
  date_str ++ u " " ++ strftime_HM now.

Definition due_date_str (data : invoice_data) : pystr :=
  match invoice_due_date data with
  | Some d => strftime_dmY d
  | None => []
  end.

(** The line break and indentation between the lines of the f-strings. *)
Definition nl4 : pystr := nl ++ u "    ".

Definition header_html (now : datetime) (data : invoice_data)
    (primary_color : pystr) (lang_choice : string)
    (number_label date_label due_date_label : pystr) : pystr :=
  let doc_title := reshape_if_arabic (doc_type data) lang_choice in
  nl4 ++ u "<font color=" ++ dq ++ primary_color ++ dq ++ u " size=" ++ dq
    ++ u "18" ++ dq ++ u "><b>" ++ upper doc_title ++ u "</b></font><br/>"
  ++ nl4 ++ u "<font color=" ++ dq ++ u "#666666" ++ dq ++ u ">"
  ++ nl4 ++ number_label ++ u ": "
    ++ reshape_if_arabic (invoice_number data) lang_choice ++ u "<br/>"
  ++ nl4 ++ date_label ++ u ": "
    ++ reshape_if_arabic (date_time_str now data) lang_choice ++ u "<br/>"
  ++ nl4 ++ due_date_label ++ u ": "
    ++ reshape_if_arabic (due_date_str data) lang_choice
  ++ nl4 ++ u "</font>"
  ++ nl4.

(** Lines 204-242: the header table and the spacer below it. *)
Definition header_block (now : datetime) (data : invoice_data)
    (lang_dict : gmap string pystr) (primary_color : pystr)
    (lang_choice : string) : result (list flowable) :=
  number_label ← label lang_dict lang_choice "number";
  date_label ← label lang_dict lang_choice "date";
  due_date_label ← label lang_dict lang_choice "due_date";
  let logo_cell :=
    match logo data with
    | Some f => CImage f (1 * inch) (1 * inch)
    | None => CParagraph [] (NormalArabic lang_choice)
    end in
  let header_data :=
    [[logo_cell;
      CParagraph (header_html now data primary_color lang_choice
                    number_label date_label due_date_label)
                 (NormalArabic lang_choice)]] in
  mret [Table header_data (Some [doc_width / 2; doc_width / 2]%float) 0
          [ALIGN (0, 0)%Z (0, 0)%Z LEFT;
           ALIGN (-1, -1)%Z (-1, -1)%Z RIGHT;
           VALIGN (0, 0)%Z (-1, -1)%Z TOP];
        Spacer 1 20].

Definition supplier_html (data : invoice_data) (primary_color : pystr)
    (lang_choice : string)
    (from_label tax_id_label mobile_label email_label : pystr) : pystr :=
  nl4 ++ u "<font color=" ++ dq ++ primary_color ++ dq ++ u "><b>"
    ++ from_label ++ u ":</b></font><br/>"
  ++ nl4 ++ reshape_if_arabic (supplier_name data) lang_choice ++ u "<br/>"
  ++ nl4 ++ reshape_if_arabic (supplier_address data) lang_choice ++ u "<br/>"
  ++ nl4 ++ tax_id_label ++ u ": "
    ++ reshape_if_arabic (supplier_tax_id data) lang_choice ++ u "<br/>"
  ++ nl4 ++ mobile_label ++ u ": "
    ++ reshape_if_arabic (supplier_mobile data) lang_choice ++ u "<br/>"
  ++ nl4 ++ email_label ++ u ": "
    ++ reshape_if_arabic (supplier_email data) lang_choice
  ++ nl4.

Definition customer_html (data : invoice_data) (primary_color : pystr)
    (lang_choice : string) (to_label : pystr) : pystr :=
  nl4 ++ u "<font color=" ++ dq ++ primary_color ++ dq ++ u "><b>"
    ++ to_label ++ u ":</b></font><br/>"
  ++ nl4 ++ reshape_if_arabic (customer_name data) lang_choice ++ u "<br/>"
  ++ nl4 ++ reshape_if_arabic (customer_address data) lang_choice
  ++ nl4.

(** Lines 244-284: supplier and customer, and the "Details" heading. *)
Definition parties_block (data : invoice_data)
    (lang_dict : gmap string pystr) (primary_color : pystr)
    (lang_choice : string) : result (list flowable) :=
  from_label ← label lang_dict lang_choice "from";
  to_label ← label lang_dict lang_choice "to";
  tax_id_label ← label lang_dict lang_choice "tax_id";
  mobile_label ← label lang_dict lang_choice "mobile";
  email_label ← label lang_dict lang_choice "email";
  let details_data :=
    [[CParagraph (supplier_html data primary_color lang_choice
                    from_label tax_id_label mobile_label email_label)
                 (NormalArabic lang_choice);
      CParagraph (customer_html data primary_color lang_choice to_label)
                 (NormalArabic lang_choice)]] in
  details_label ← label lang_dict lang_choice "details";
  mret [Table details_data (Some [doc_width / 2; doc_width / 2]%float) 0
          [ALIGN (0, 0)%Z (-1, -1)%Z LEFT;
           VALIGN (0, 0)%Z (-1, -1)%Z TOP;
           BOTTOMPADDING (0, 0)%Z (-1, -1)%Z 20];
        Spacer 1 20;
        Paragraph details_label (SubHeading primary_color lang_choice)].

(** The state of the loop over the items: the rows so far and the two sums. *)
Record loop_state : Type := {
  items_data : list (list cell);
  total_without_vat : float;
  total_vat : float
}.

(** Lines 302-323: the body of the loop. *)
Definition loop_body (lang_choice : string) (st : loop_state) (it : item)
  : result loop_state :=
  let desc := reshape_if_arabic (description it) lang_choice in
  q ← float_of_int (quantity it);
  let subtotal := (q * unit_price it)%float in
  let vat_amount := (subtotal * (vat_rate it / 100))%float in
  let line_total := (subtotal + vat_amount)%float in
  let row_data :=
    [CStr desc;
     CStr (str_int (quantity it));
     CStr (format_2f (unit_price it));
     CStr (str_float (vat_rate it) ++ u "%");
     CStr (format_2f vat_amount);
     CStr (format_2f line_total)] in
  mret {| items_data := items_data st ++ [row_data];
          total_without_vat := (total_without_vat st + subtotal)%float;
          total_vat := (total_vat st + vat_amount)%float |}.

Fixpoint for_item_in (lang_choice : string) (items : list item)
    (st : loop_state) : result loop_state :=
  match items with
  | [] => mret st
  | it :: rest =>
    st' ← loop_body lang_choice st it;
    for_item_in lang_choice rest st'
  end.

(** Lines 331-335: the three rows below the items. *)
Definition totals_rows (lbl_subtotal lbl_total_vat lbl_total : pystr)
    (total_without_vat total_vat grand_total : float) : list (list cell) :=
  [[CStr []; CStr []; CStr []; CStr [];
    CStr (lbl_subtotal ++ u ":"); CStr (format_2f total_without_vat)];
   [CStr []; CStr []; CStr []; CStr [];
    CStr (lbl_total_vat ++ u ":"); CStr (format_2f total_vat)];
   [CStr []; CStr []; CStr []; CStr [];
    CStr (lbl_total ++ u ":"); CStr (format_2f grand_total)]].

(** Lines 338-354: the style of the item table. *)
Definition items_table_style (primary_color : pystr) (lang_choice : string)
  : list style_cmd :=
  [ (* Header style *)
    BACKGROUND (0, 0)%Z (-1, 0)%Z (HexColor primary_color);
    TEXTCOLOR (0, 0)%Z (-1, 0)%Z whitesmoke;
    ALIGN (0, 0)%Z (-1, 0)%Z CENTER;
    FONTNAME (0, 0)%Z (-1, 0)%Z (font_name lang_choice);
    FONTSIZE (0, 0)%Z (-1, 0)%Z 12;
    BOTTOMPADDING (0, 0)%Z (-1, 0)%Z 12;
    (* Grid lines *)
    ALIGN (1, 1)%Z (-1, -1)%Z RIGHT;
    GRID (0, 0)%Z (-1, -2)%Z 0.5 (HexColor (u "#CCCCCC"));
    (* Totals lines *)
    FONTNAME (-2, -3)%Z (-1, -1)%Z (font_name lang_choice);
    LINEABOVE (-2, -3)%Z (-1, -3)%Z 1 (HexColor primary_color) ].

(** Lines 286-355: the item table with its totals. *)
Definition items_block (items : list item) (lang_dict : gmap string pystr)
    (primary_color : pystr) (lang_choice : string) : result (list flowable) :=
  hdr_description ← label lang_dict lang_choice "description";
  hdr_quantity ← label lang_dict lang_choice "quantity";
  hdr_unit_price ← label lang_dict lang_choice "unit_price";
  hdr_vat_rate ← label lang_dict lang_choice "vat_rate";
  hdr_vat_amount ← label lang_dict lang_choice "vat_amount";
  hdr_total ← label lang_dict lang_choice "total";
  let header_row :=
    [CStr hdr_description; CStr hdr_quantity; CStr hdr_unit_price;
     CStr hdr_vat_rate; CStr hdr_vat_amount; CStr hdr_total] in
  st ← for_item_in lang_choice items
         {| items_data := [header_row];
            total_without_vat := 0; total_vat := 0 |};
  let grand_total := (total_without_vat st + total_vat st)%float in
  lbl_subtotal ← label lang_dict lang_choice "subtotal";
  lbl_total_vat ← label lang_dict lang_choice "total_vat";
  lbl_total ← label lang_dict lang_choice "total";
  mret [Table (items_data st
               ++ totals_rows lbl_subtotal lbl_total_vat lbl_total
                    (total_without_vat st) (total_vat st) grand_total)
              None 1 (items_table_style primary_color lang_choice)].

(** Lines 357-377: the optional blocks. *)
Definition payment_terms_block (data : invoice_data)
    (lang_dict : gmap string pystr) (primary_color : pystr)
    (lang_choice : string) : result (list flowable) :=
  if truthy (payment_terms data) then
    label_pt ← label lang_dict lang_choice "payment_terms";
    let shaped_pt := reshape_if_arabic (payment_terms data) lang_choice in
    mret [Spacer 1 20;
          Paragraph (u "<b>" ++ label_pt ++ u "</b>:")
                    (SubHeading primary_color lang_choice);
          Paragraph shaped_pt (NormalArabic lang_choice)]
  else mret [].

Definition delivery_terms_block (data : invoice_data)
    (lang_dict : gmap string pystr) (primary_color : pystr)
    (lang_choice : string) : result (list flowable) :=
  if truthy (delivery_terms data) then
    label_dt ← label lang_dict lang_choice "delivery_terms";
    let shaped_dt := reshape_if_arabic (delivery_terms data) lang_choice in
    mret [Spacer 1 10;
          Paragraph (u "<b>" ++ label_dt ++ u "</b>:")
                    (SubHeading primary_color lang_choice);
          Paragraph shaped_dt (NormalArabic lang_choice)]
  else mret [].

(** The text of the accept-checks paragraph. *)
Definition accept_checks_text (label_ac : pystr) (lang_choice : string)
  : pystr :=
  u "<b>" ++ label_ac ++ u "</b> " ++ reshape_if_arabic (u "Yes") lang_choice.

Definition accept_checks_block (data : invoice_data)
    (lang_dict : gmap string pystr) (lang_choice : string)
  : result (list flowable) :=
  if accept_checks data then
    label_ac ← label lang_dict lang_choice "accept_checks";
    mret [Spacer 1 10;
          Paragraph (accept_checks_text label_ac lang_choice)
                    (NormalArabic lang_choice)]
  else mret [].

(** The story that the function composes and hands to [doc.build]; [now] is
    the reading of the clock that [datetime.now()] makes during the call.

    The definition follows the statements of the function itself: the
    lookups in the dictionary and the arithmetic, which raise [KeyError] and
    [OverflowError], and the objects created, in the order of the source.
    ReportLab is outside of it.  [HexColor], [Paragraph] and [Image] check
    their argument when the function calls them and raise on their own
    account (a colour that is not a hexadecimal number, markup that does not
    parse, a file that is not an image), and [doc.build] lays the story out
    and writes the PDF into the buffer that the function returns.  So the
    definition describes the function as far as ReportLab accepts what it is
    given: where the function raises [KeyError] or [OverflowError] the
    definition raises the same, and where the function reaches [doc.build]
    the definition returns the story passed to it.  Nothing here says that a
    call returns, nor what the bytes of the buffer are. *)
Definition create_modern_invoice_pdf (now : datetime) (data : invoice_data)
    (items : list item) (lang_dict : gmap string pystr)
    (primary_color : pystr) (lang_choice : string) : result (list flowable) :=
  header ← header_block now data lang_dict primary_color lang_choice;
  parties ← parties_block data lang_dict primary_color lang_choice;
  table ← items_block items lang_dict primary_color lang_choice;
  payment ← payment_terms_block data lang_dict primary_color lang_choice;
  delivery ← delivery_terms_block data lang_dict primary_color lang_choice;
  checks ← accept_checks_block data lang_dict lang_choice;
  mret (header ++ parties ++ table ++ payment ++ delivery ++ checks).

(** ** Section 6 of the program: the download button of [main] *)

(** What the branch shows: an error message, or a download button.  The
    [data] of the button is the buffer that [create_modern_invoice_pdf]
    returns, which [doc.build] writes from the story; the story stands for
    it here. *)
Inductive st_call : Type :=
  | st_error (body : pystr)
  | st_download_button (label : pystr) (data : list flowable)
                       (file_name : pystr) (mime : pystr).

Definition no_item_message (lang_choice : string) : pystr :=
  if (lang_choice =? "en")%string then u "Please add at least one item."
  else if (lang_choice =? "fr")%string then
    u "Veuillez ajouter au moins un article."
  else u "الرجاء إضافة عنصر واحد على الأقل.".

(** Lines 511-528, once the button is pressed; [lang_dict] is
    [LANGUAGES[lang_choice]] as line 400 sets it. *)
Definition main_download (now : datetime) (lang_choice : string)
    (primary_color : pystr) (data : invoice_data) (items : list item)
  : result st_call :=
  lang_dict ← getitem LANGUAGES lang_choice;
  download_label ← getitem lang_dict "download";
  if (length items =? 0)%nat then
    mret (st_error (no_item_message lang_choice))
  else
    pdf_bytes ← create_modern_invoice_pdf now data items lang_dict
                  primary_color lang_choice;
    let file_name := doc_type data ++ u "_" ++ invoice_number data ++ u ".pdf" in
    mret (st_download_button download_label pdf_bytes file_name
            (u "application/pdf")).

End Composer.

(* ===================================================================== *)
(** * The specification's reading, for comparison with the program *)
(* ===================================================================== *)

(** The FinancialCalculator of the specification: [computeLine] gives
    subtotal = quantity x unit price, vat_amount = subtotal x rate/100 and
    line_total = subtotal + vat_amount, in the arithmetic of the program's
    numbers. *)
Definition computeLine (it : item) : result (float * float * float) :=
  q ← float_of_int (quantity it);
  let subtotal := (q * unit_price it)%float in
  let vatAmount := (subtotal * (vat_rate it / 100))%float in
  mret (subtotal, vatAmount, (subtotal + vatAmount)%float).

Definition line_subtotal (l : float * float * float) : float := l.1.1.
Definition line_vat (l : float * float * float) : float := l.1.2.
Definition line_total (l : float * float * float) : float := l.2.

(** The sum of a list, in the order of the list, from [acc]. *)
Definition sum_from (acc : float) (l : list float) : float :=
  fold_left PrimFloat.add l acc.

(** [computeTotals]: the sums of the subtotals and of the VAT amounts, and
    the sum of the two. *)
Definition computeTotals (items : list item) : result (float * float * float) :=
  lines ← mapM computeLine items;
  let subtotal := sum_from 0 (map line_subtotal lines) in
  let totalVat := sum_from 0 (map line_vat lines) in
  mret (subtotal, totalVat, (subtotal + totalVat)%float).

(** The row the table shows for an item with the amounts [l]. *)
Definition line_row (reshape get_display : pystr -> pystr)
    (str_float : float -> pystr) (lang_choice : string) (it : item)
    (l : float * float * float) : list cell :=
  [CStr (reshape_if_arabic reshape get_display (description it) lang_choice);
   CStr (str_int (quantity it));
   CStr (format_2f (unit_price it));
   CStr (str_float (vat_rate it) ++ u "%");
   CStr (format_2f (line_vat l));
   CStr (format_2f (line_total l))].

(** The six column labels of the first row, and the three labels of the
    totals rows, looked up and shaped in the order of the program. *)
Definition items_header_row (reshape get_display : pystr -> pystr)
    (lang_dict : gmap string pystr) (lang_choice : string)
  : result (list cell) :=
  l ← mapM (label reshape get_display lang_dict lang_choice)
        ["description"; "quantity"; "unit_price"; "vat_rate"; "vat_amount";
         "total"]%string;
  mret (map CStr l).

Definition totals_labels (reshape get_display : pystr -> pystr)
    (lang_dict : gmap string pystr) (lang_choice : string)
  : result (list pystr) :=
  mapM (label reshape get_display lang_dict lang_choice)
    ["subtotal"; "total_vat"; "total"]%string.

(** The three rows of the totals block for the amounts [t];
    each label is followed by a colon. *)
Definition totals_block (labels : list pystr) (t : float * float * float)
  : list (list cell) :=
  map (fun lv => [CStr []; CStr []; CStr []; CStr [];
                  CStr (lv.1 ++ u ":"); CStr (format_2f lv.2)])
      (zip labels [line_subtotal t; line_vat t; line_total t]).

(** The rounding the specification names: half away from zero. *)
Definition round_half_away (num den : Z) : Z :=
  let q := (num / den)%Z in
  let r := (num mod den)%Z in
  if (2 * r <? den)%Z then q else (q + 1)%Z.

Definition hundredths_half_away (m : positive) (e : Z) : Z :=
  if (0 <=? e)%Z then (100 * Z.pos m * 2 ^ e)%Z
  else round_half_away (100 * Z.pos m) (2 ^ (- e)).

Definition format_2f_half_away (x : float) : pystr :=
  match Prim2SF x with
  | S754_nan => u "nan"
  | S754_infinity s => sign_str s ++ u "inf"
  | S754_zero s => sign_str s ++ u "0.00"
  | S754_finite s m e => sign_str s ++ fixed2 (hundredths_half_away m e)
  end.

(** The bounds the specification puts on a line item. *)
Definition within_bounds (it : item) : bool :=
  (1 <=? quantity it)%Z && (0 <=? unit_price it)%float
  && (0 <=? vat_rate it)%float.

(** ** Sample inputs *)

(** Stand-ins for the three library functions, for the examples.

    [sample_reshape] does what arabic_reshaper does, in its default
    configuration, with a text made of the letters U+0621-U+063A and
    U+0641-U+064A, of the question mark U+061F and of characters outside
    the Arabic blocks: a letter becomes its isolated, final, initial or
    medial presentation form according to its neighbours, a lam and the alef
    after it become their ligature, and the other characters are kept.
    [arabic_forms] gives for each letter its isolated, final, initial and
    medial form, 0 where it has none. *)
Definition arabic_forms : list (N * (N * N * N * N)) :=
  [(1569, (65152, 0, 0, 0)); (1570, (65153, 65154, 0, 0));
   (1571, (65155, 65156, 0, 0)); (1572, (65157, 65158, 0, 0));
   (1573, (65159, 65160, 0, 0)); (1574, (65161, 65162, 65163, 65164));
   (1575, (65165, 65166, 0, 0)); (1576, (65167, 65168, 65169, 65170));
   (1577, (65171, 65172, 0, 0)); (1578, (65173, 65174, 65175, 65176));
   (1579, (65177, 65178, 65179, 65180)); (1580, (65181, 65182, 65183, 65184));
   (1581, (65185, 65186, 65187, 65188)); (1582, (65189, 65190, 65191, 65192));
   (1583, (65193, 65194, 0, 0)); (1584, (65195, 65196, 0, 0));
   (1585, (65197, 65198, 0, 0)); (1586, (65199, 65200, 0, 0));
   (1587, (65201, 65202, 65203, 65204)); (1588, (65205, 65206, 65207, 65208));
   (1589, (65209, 65210, 65211, 65212)); (1590, (65213, 65214, 65215, 65216));
   (1591, (65217, 65218, 65219, 65220)); (1592, (65221, 65222, 65223, 65224));
   (1593, (65225, 65226, 65227, 65228)); (1594, (65229, 65230, 65231, 65232));
   (1601, (65233, 65234, 65235, 65236)); (1602, (65237, 65238, 65239, 65240));
   (1603, (65241, 65242, 65243, 65244)); (1604, (65245, 65246, 65247, 65248));
   (1605, (65249, 65250, 65251, 65252)); (1606, (65253, 65254, 65255, 65256));
   (1607, (65257, 65258, 65259, 65260)); (1608, (65261, 65262, 0, 0));
   (1609, (65263, 65264, 64488, 64489));
   (1610, (65265, 65266, 65267, 65268))]%N.

Definition forms_of (c : N) : option (N * N * N * N) :=
  snd <$> find (fun p => (p.1 =? c)%N) arabic_forms.

Definition joins_before (c : N) : bool :=
  match forms_of c with
  | Some (_, final, _, _) => negb (final =? 0)%N
  | None => false
  end.

Definition joins_after (c : N) : bool :=
  match forms_of c with
  | Some (_, _, initial, _) => negb (initial =? 0)%N
  | None => false
  end.

(** The isolated form of the ligature of a lam with the alef [a]; its final
    form is the next code point. *)
Definition lam_alef (a : N) : option N :=
  (if a =? 1570 then Some 65269 else if a =? 1571 then Some 65271
   else if a =? 1573 then Some 65273 else if a =? 1575 then Some 65275
   else None)%N.

(** [joined]: the letter before joins the first letter of [s]. *)
Fixpoint sample_shape (joined : bool) (s : pystr) : pystr :=
  match s with
  | [] => []
  | c :: r =>
    match forms_of c with
    | None => c :: sample_shape false r
    | Some (isolated, final, initial, medial) =>
      match r with
      | [] => [if joined then final else isolated]
      | a :: r' =>
        match (if (c =? 1604)%N then lam_alef a else None) with
        | Some ligature =>
          (if joined then ligature + 1 else ligature)%N
            :: sample_shape false r'
        | None =>
          let joins := joins_after c && joins_before a in
          (if joined then if joins then medial else final
           else if joins then initial else isolated)
            :: sample_shape joins r
        end
      end
    end
  end.

Definition sample_reshape (s : pystr) : pystr := sample_shape false s.

(** [sample_get_display] gives the order of display that python-bidi gives
    to a text of code points below U+0590, none of which is written from
    right to left (the text itself), and to a text made of characters of
    the Arabic blocks, of their presentation forms and of spaces (the text
    reversed); it is not meant for other text. *)
Definition sample_get_display (s : pystr) : pystr :=
  if forallb (fun c => (c <? 1424)%N) s then s else rev s.

(** [sample_str_float] prints a finite float as [str] does where it uses no
    exponent (from 1e-4 to below 1e16 in absolute value): the shortest
    decimal that reads back as the same float, with at least one digit after
    the point.  [reads_back m e n k]: the decimal [n / 10^k] is nearer to
    [m * 2^e], [e < 0], than to any other float (ties go to the float of even
    mantissa; below a power of two the next float is half as far). *)
Definition reads_back (m : positive) (e : Z) (n : Z) (k : nat) : bool :=
  let scaled := (Z.pos m * 10 ^ Z.of_nat k)%Z in
  let d := Z.abs (n * 2 ^ (- e) - scaled) in
  let d2 :=
    if (n * 2 ^ (- e) <? scaled)%Z && (Z.pos m =? 2 ^ 52)%Z then (4 * d)%Z
    else (2 * d)%Z in
  if Z.even (Z.pos m) then (d2 <=? 10 ^ Z.of_nat k)%Z
  else (d2 <? 10 ^ Z.of_nat k)%Z.

(** The nearest decimal of [k] fractional digits, if it reads back, or else
    its neighbour that does. *)
Definition decimal_at (m : positive) (e : Z) (k : nat) : option Z :=
  let scaled := (Z.pos m * 10 ^ Z.of_nat k)%Z in
  let below := (scaled / 2 ^ (- e))%Z in
  let nearest := round_half_even scaled (2 ^ (- e)) in
  if reads_back m e nearest k then Some nearest
  else if reads_back m e below k then Some below
  else if reads_back m e (below + 1) k then Some (below + 1)%Z
  else None.

Fixpoint shortest_decimal (fuel : nat) (m : positive) (e : Z) (k : nat)
  : Z * nat :=
  match fuel with
  | O => (round_half_even (Z.pos m * 10 ^ Z.of_nat k) (2 ^ (- e)), k)
  | S fuel' =>
    match decimal_at m e k with
    | Some n => (n, k)
    | None => shortest_decimal fuel' m e (S k)
    end
  end.

(** The [k] last decimal digits of [n]. *)
Fixpoint fraction_digits (k : nat) (n : Z) : pystr :=
  match k with
  | O => []
  | S k' => fraction_digits k' (n / 10) ++ [(48 + Z.to_N (n mod 10))%N]
  end.

Definition sample_str_float (x : float) : pystr :=
  match Prim2SF x with
  | S754_zero s => sign_str s ++ u "0.0"
  | S754_finite s m e =>
    if (0 <=? e)%Z then sign_str s ++ str_int (Z.pos m * 2 ^ e) ++ u ".0"
    else
      let '(n, k) := shortest_decimal 24 m e 1 in
      sign_str s ++ str_int (n / 10 ^ Z.of_nat k) ++ u "."
        ++ fraction_digits k (n mod 10 ^ Z.of_nat k)
  | S754_infinity s => sign_str s ++ u "inf"
  | S754_nan => u "nan"
  end.

Definition sample_item : item :=
  {| description := u "Consulting"; quantity := 3;
     unit_price := 10; vat_rate := 19 |}.

Definition negative_item : item :=
  {| description := u "Refund"; quantity := -1;
     unit_price := 10; vat_rate := 19 |}.

(** 0.40 at 1 % VAT: 0.004 of VAT on each line. *)
Definition small_item : item :=
  {| description := u "Sticker"; quantity := 1;
     unit_price := 0.4; vat_rate := 1 |}.

(** One unit at 0.125, a price that lies exactly between 0.12 and 0.13. *)
Definition eighth_item : item :=
  {| description := u "Washer"; quantity := 1;
     unit_price := 0.125; vat_rate := 0 |}.

Definition sample_data : invoice_data :=
  {| doc_type := u "Invoice";
     supplier_name := u "Neuratech Solutions";
     supplier_address := u "30 rue 6667";
     supplier_tax_id := u "122344";
     supplier_mobile := [];
     supplier_email := [];
     logo := None;
     customer_name := u "ACME";
     customer_address := u "1 Main Street";
     invoice_number := u "1a2b3c4d";
     invoice_date := Some {| year := 2024; month := 3; day := 9 |};
     invoice_due_date := None;
     payment_terms := [];
     delivery_terms := [];
     accept_checks := true |}.

(** The same record with another document type. *)
Definition with_doc_type (data : invoice_data) (t : pystr) : invoice_data :=
  {| doc_type := t;
     supplier_name := supplier_name data;
     supplier_address := supplier_address data;
     supplier_tax_id := supplier_tax_id data;
     supplier_mobile := supplier_mobile data;
     supplier_email := supplier_email data;
     logo := logo data;
     customer_name := customer_name data;
     customer_address := customer_address data;
     invoice_number := invoice_number data;
     invoice_date := invoice_date data;
     invoice_due_date := invoice_due_date data;
     payment_terms := payment_terms data;
     delivery_terms := delivery_terms data;
     accept_checks := accept_checks data |}.

Definition sample_now (h m s : N) : datetime :=
  {| today := {| year := 2024; month := 3; day := 9 |};
     hour := h; minute := m; second := s; microsecond := 0 |}.

Definition en_dict : gmap string pystr := default ∅ (LANGUAGES !! "en"%string).

Definition ar_dict : gmap string pystr := default ∅ (LANGUAGES !! "ar"%string).

(** The text of the header paragraph of a story: the second cell of the
    first table. *)
Definition header_text (story : list flowable) : option pystr :=
  match story with
  | Table [[_; CParagraph text _]] _ _ _ :: _ => Some text
  | _ => None
  end.

(** The rows of the item table of a story: the table that repeats its first
    row. *)
Fixpoint items_rows (story : list flowable) : option (list (list cell)) :=
  match story with
  | [] => None
  | Table rows _ 1 _ :: _ => Some rows
  | _ :: rest => items_rows rest
  end.

(* ===================================================================== *)
(** * The rest of the program *)
(* ===================================================================== *)

(** ** Section 5 of the program: the PDF shown in an iframe *)

(** [base64.b64encode]: the standard alphabet, three bytes to four
    characters, padded with "=". *)
Definition b64_char (i : N) : N :=
  (if i <? 26 then 65 + i
   else if i <? 52 then 97 + (i - 26)
   else if i <? 62 then 48 + (i - 52)
   else if i =? 62 then 43 else 47)%N.

Fixpoint b64encode (bs : list N) : list N :=
  match bs with
  | [] => []
  | [a] => [b64_char (a / 4); b64_char (a mod 4 * 16); 61; 61]%N
  | [a; b] =>
    [b64_char (a / 4); b64_char (a mod 4 * 16 + b / 16);
     b64_char (b mod 16 * 4); 61]%N
  | a :: b :: c :: rest =>
    [b64_char (a / 4); b64_char (a mod 4 * 16 + b / 16);
     b64_char (b mod 16 * 4 + c / 64); b64_char (c mod 64)]%N
      ++ b64encode rest
  end.

(** Lines 387-390; [.decode('utf-8')] is [utf8_decode]. *)
Definition get_pdf_iframe (pdf_bytes : list N) : pystr :=
  let base64_pdf := utf8_decode (b64encode pdf_bytes) in
  u "<iframe src=" ++ dq ++ u "data:application/pdf;base64," ++ base64_pdf
    ++ dq ++ u " width=" ++ dq ++ u "700" ++ dq
    ++ u " height=" ++ dq ++ u "1000" ++ dq
    ++ u " type=" ++ dq ++ u "application/pdf" ++ dq ++ u "></iframe>".

(** The characters of the base64 alphabet, and the padding. *)
Definition b64_alphabet (c : N) : bool :=
  ((65 <=? c) && (c <=? 90) || (97 <=? c) && (c <=? 122)
   || (48 <=? c) && (c <=? 57) || (c =? 43) || (c =? 47))%N.

(** The value of a character of the alphabet, and the decoding of a padded
    base64 text, as the reader of a data URL does it. *)
Definition b64_index (c : N) : N :=
  (if (65 <=? c) && (c <=? 90) then c - 65
   else if (97 <=? c) && (c <=? 122) then c - 97 + 26
   else if (48 <=? c) && (c <=? 57) then c - 48 + 52
   else if c =? 43 then 62 else 63)%N.

Fixpoint b64decode (cs : list N) : list N :=
  match cs with
  | c0 :: c1 :: c2 :: c3 :: rest =>
    let i0 := b64_index c0 in
    let i1 := b64_index c1 in
    let i2 := b64_index c2 in
    let i3 := b64_index c3 in
    if (c2 =? 61)%N then [i0 * 4 + i1 / 16]%N
    else if (c3 =? 61)%N then
      [i0 * 4 + i1 / 16; i1 mod 16 * 16 + i2 / 4]%N
    else
      [i0 * 4 + i1 / 16; i1 mod 16 * 16 + i2 / 4; i2 mod 4 * 64 + i3]%N
        ++ b64decode rest
  | _ => []
  end.

(** ** Section 6 of the program: the list of items of [main] *)

(** What a run writes to the page. *)
Inductive ui_call : Type :=
  | st_write (text : pystr)
  | st_button (label key : pystr).

(** The key of the remove button of the item at [idx]. *)
Definition remove_key (idx : nat) : pystr :=
  u "remove_" ++ str_int (Z.of_nat idx).

Section ItemList.

Variable str_float : float -> pystr.

(** [st.button]: whether the button of a key was pressed before this run. *)
Variable pressed : pystr -> bool.

(** Lines 453-459: the form appends the new item when it is submitted. *)
Definition add_item (submitted : bool) (new_item : item) (items : list item)
  : list item :=
  if submitted then items ++ [new_item] else items.

(** Lines 464-469. *)
Definition item_line (lang_dict : gmap string pystr) (it : item)
  : result pystr :=
  l_description ← getitem lang_dict "description";
  l_quantity ← getitem lang_dict "quantity";
  l_unit_price ← getitem lang_dict "unit_price";
  l_vat_rate ← getitem lang_dict "vat_rate";
  mret (l_description ++ u ": " ++ description it ++ u " | "
        ++ l_quantity ++ u ": " ++ str_int (quantity it) ++ u " | "
        ++ l_unit_price ++ u ": " ++ str_float (unit_price it) ++ u " | "
        ++ l_vat_rate ++ u ": " ++ str_float (vat_rate it) ++ u "%").

(** Lines 463-472: the loop over the list in the session state.  The list is
    the one object that the loop reads by index and that [pop] shortens, so
    the state of the loop is the index of the iterator and the current list;
    the loop ends when the index reaches the end of the current list.
    [pop] is called at the index that the loop has just read, which is in
    range, so it is the deletion at that index.  [fuel] bounds the number of
    turns. *)
Fixpoint items_loop (lang_dict : gmap string pystr) (fuel idx : nat)
    (items : list item) (log : list ui_call)
  : result (list item * list ui_call) :=
  match fuel with
  | O => mret (items, log)
  | S fuel' =>
    match items !! idx with
    | None => mret (items, log)
    | Some it =>
      line ← item_line lang_dict it;
      l_remove ← getitem lang_dict "remove";
      let log' :=
        log ++ [st_write (u "- " ++ str_int (Z.of_nat idx + 1) ++ u ") "
                          ++ line);
                st_button (l_remove ++ u " " ++ str_int (Z.of_nat idx + 1))
                          (remove_key idx)] in
      let items' :=
        if pressed (remove_key idx) then delete idx items else items in
      items_loop lang_dict fuel' (S idx) items' log'
    end
  end.

(** Lines 461-472.  The loop makes at most one turn per item of the list it
    starts with. *)
Definition items_section (lang_dict : gmap string pystr) (items : list item)
  : result (list item * list ui_call) :=
  if (0 <? length items)%nat then
    l_services ← getitem lang_dict "services_products";
    items_loop lang_dict (length items) 0 items
      [st_write (l_services ++ u ":")]
  else mret (items, []).

End ItemList.

(** The loop over the list, read from the list alone: [pass idx suf] gives
    what a run that has reached the index [idx], with the items [suf] from
    there on, keeps of [suf] and which items of [suf] it shows.  After a
    [pop] the iterator moves on by one in the shortened list, past the item
    that took the place of the removed one. *)
Section ItemListPass.

Variable pressed : pystr -> bool.

Fixpoint pass (idx : nat) (suf : list item) : list item * list item :=
  match suf with
  | [] => ([], [])
  | it :: rest =>
    if pressed (remove_key idx) then
      match rest with
      | [] => ([], [it])
      | next :: rest' =>
        (next :: (pass (S idx) rest').1, it :: (pass (S idx) rest').2)
      end
    else (it :: (pass (S idx) rest).1, it :: (pass (S idx) rest).2)
  end.

End ItemListPass.

(** The line and the button that a run puts on the page for each of the
    items [shown], the first of them at the index [idx]. *)
Fixpoint listing_calls (l_remove : pystr) (line : item -> pystr) (idx : nat)
    (shown : list item) : list ui_call :=
  match shown with
  | [] => []
  | it :: rest =>
    [st_write (u "- " ++ str_int (Z.of_nat idx + 1) ++ u ") " ++ line it);
     st_button (l_remove ++ u " " ++ str_int (Z.of_nat idx + 1))
               (remove_key idx)]
      ++ listing_calls l_remove line (S idx) rest
  end.

(** The labels that the list of items looks up. *)
Definition item_list_keys : list string :=
  ["services_products"; "description"; "quantity"; "unit_price"; "vat_rate";
   "remove"]%string.

(** ** Readings of a composed story *)

(** The keys that composing a record looks up, in the order of the lookups. *)
Definition required_keys (data : invoice_data) : list string :=
  ["number"; "date"; "due_date"; "from"; "to"; "tax_id"; "mobile"; "email";
   "details"; "description"; "quantity"; "unit_price"; "vat_rate";
   "vat_amount"; "total"; "subtotal"; "total_vat"; "total"]%string
  ++ (if truthy (payment_terms data) then ["payment_terms"%string] else [])
  ++ (if truthy (delivery_terms data) then ["delivery_terms"%string] else [])
  ++ (if accept_checks data then ["accept_checks"%string] else []).

(** What an outcome of a computation that looks up [keys] in [d] and
    converts the quantities of [items] says about them. *)
Definition outcome {A : Type} (d : gmap string pystr) (keys : list string)
    (items : list item) (r : result A) : Prop :=
  match r with
  | Ok _ =>
    Forall (fun k => exists v, d !! k = Some v) keys
    /\ Forall (fun it => exists q, float_of_int (quantity it) = Ok q) items
  | Raise (KeyError k) => In k keys /\ d !! k = None
  | Raise OverflowError =>
    Exists (fun it => float_of_int (quantity it) = Raise OverflowError) items
  end.

(** The kind of a flowable: a table, a spacer of some height, a paragraph in
    the style of some name. *)
Inductive flowable_kind : Type :=
  | KTable
  | KSpacer (height : Z)
  | KParagraph (style_name : string).

Definition kind_of (f : flowable) : flowable_kind :=
  match f with
  | Table _ _ _ _ => KTable
  | Spacer _ h => KSpacer h
  | Paragraph _ st => KParagraph (name st)
  end.

(** The fonts a story names: those of the styles of its paragraphs, inside
    tables too, and those of the FONTNAME commands of its tables. *)
Definition cell_fonts (c : cell) : list string :=
  match c with
  | CParagraph _ st => [fontName st]
  | _ => []
  end.

Definition cmd_fonts (cmd : style_cmd) : list string :=
  match cmd with
  | FONTNAME _ _ f => [f]
  | _ => []
  end.

Definition flowable_fonts (f : flowable) : list string :=
  match f with
  | Table rows _ _ style =>
    concat (map (fun row => concat (map cell_fonts row)) rows)
    ++ concat (map cmd_fonts style)
  | Spacer _ _ => []
  | Paragraph _ st => [fontName st]
  end.

Definition story_fonts (story : list flowable) : list string :=
  concat (map flowable_fonts story).

(** The texts that a run wrote. *)
Definition written (log : list ui_call) : list pystr :=
  concat (map (fun c => match c with
                        | st_write t => [t]
                        | st_button _ _ => []
                        end) log).

(** The keys of the buttons of a run. *)
Definition button_keys (log : list ui_call) : list pystr :=
  concat (map (fun c => match c with
                        | st_write _ => []
                        | st_button _ k => [k]
                        end) log).

(* ===================================================================== *)
(** * Properties *)
(* ===================================================================== *)

(** ** The error monad *)

Lemma bind_Ok {A B : Type} (m : result A) (f : A -> result B) (b : B) :
  m ≫= f = Ok b -> exists a, m = Ok a /\ f a = Ok b.
Proof.
  destruct m as [a|e]; simpl; intros H.
  - exists a. split; [reflexivity | exact H].
  - discriminate H.
Qed.

Ltac inv_bind H :=
  let a := fresh "v" in
  let Ha := fresh "Hv" in
  apply bind_Ok in H; destruct H as (a & Ha & H).

(** ** Shaping *)

Lemma lstrip_whitespace (s : pystr) :
  forallb isspace s = true -> lstrip s = [].
Proof.
  induction s as [|c r IH]; simpl; [reflexivity|].
  intros H. apply andb_true_iff in H as [Hc Hr].
  rewrite Hc. apply IH, Hr.
Qed.

Lemma strip_whitespace (s : pystr) :
  forallb isspace s = true -> strip s = [].
Proof.
  intros H. unfold strip. rewrite (lstrip_whitespace s H). reflexivity.
Qed.

Lemma reshape_if_arabic_unchanged_lang (reshape get_display : pystr -> pystr)
    (text : pystr) (lang : string) :
  lang <> "ar"%string -> reshape_if_arabic reshape get_display text lang = text.
Proof.
  intros Hlang. unfold reshape_if_arabic.
  apply String.eqb_neq in Hlang. rewrite Hlang. reflexivity.
Qed.

Section Shaping.

Variable reshape : pystr -> pystr.
Variable get_display : pystr -> pystr.

(** C3.  Shaping for a language other than Arabic returns the text unchanged,
    whatever the text; and for every language, Arabic included, a text that is
    empty or made of whitespace only is returned unchanged. *)
Theorem reshape_if_arabic_identity (text : pystr) (lang : string) :
  (lang <> "ar"%string ->
   reshape_if_arabic reshape get_display text lang = text)
  /\ (forallb isspace text = true ->
      reshape_if_arabic reshape get_display text lang = text).
Proof.
  split.
  - apply reshape_if_arabic_unchanged_lang.
  - intros Hws. unfold reshape_if_arabic.
    rewrite (strip_whitespace text Hws). simpl.
    rewrite andb_false_r. reflexivity.
Qed.

End Shaping.

Lemma reshape_if_arabic_identity_witness :
  ("fr"%string <> "ar"%string
   /\ reshape_if_arabic sample_reshape sample_get_display (u "Détails") "fr" = u "Détails")
  /\ (forallb isspace [32; 9; 160; 8195]%N = true
      /\ reshape_if_arabic sample_reshape sample_get_display [32; 9; 160; 8195]%N "ar"
         = [32; 9; 160; 8195]%N).
Proof.
  split.
  - split; [discriminate|].
    apply (proj1 (reshape_if_arabic_identity sample_reshape sample_get_display _ _)).
    discriminate.
  - split; [reflexivity|].
    apply (proj2 (reshape_if_arabic_identity sample_reshape sample_get_display _ _)).
    reflexivity.
Defined.

(** ** The language dictionaries *)

(** C9, as stated, fails at its first key: no dictionary has an entry
    "document_type" (the dictionaries name it "document_type_label"). *)
Lemma document_type_key_missing :
  In "document_type"%string spec_label_keys
  /\ Forall (fun lang =>
               exists d, LANGUAGES !! lang = Some d
                         /\ d !! "document_type"%string = None
                         /\ has_label lang "document_type" = false)
            supported_languages.
Proof.
  split; [left; reflexivity|].
  repeat constructor; eexists; (split; [reflexivity|]);
    split; vm_compute; reflexivity.
Qed.

(** C9, amended.  For every key of the closed label set, the document-type
    label being looked up under the dictionaries' own name for it,
    "document_type_label", each of the three dictionaries has the key and
    maps it to a non-empty string. *)
Theorem label_completeness :
  label_keys = "document_type_label"%string :: tail spec_label_keys
  /\ Forall (fun lang =>
               Forall (fun key =>
                         exists d v, LANGUAGES !! lang = Some d
                                     /\ d !! key = Some v /\ v <> [])
                      label_keys)
            supported_languages.
Proof.
  split; [reflexivity|].
  repeat constructor;
    (eexists; eexists; split; [reflexivity|];
     split; [vm_compute; reflexivity | discriminate]).
Qed.

(** ** The amounts of the item table *)

Section Financial.

Variable reshape : pystr -> pystr.
Variable get_display : pystr -> pystr.
Variable str_float : float -> pystr.

Local Abbreviation for_item_in := (for_item_in reshape get_display str_float).
Local Abbreviation line_row := (line_row reshape get_display str_float).
Local Abbreviation label := (label reshape get_display).

Ltac result_simpl :=
  cbn [mbind mret result_bind result_ret].

(** One turn of the loop: the amounts are those of [computeLine]. *)
Lemma loop_body_computeLine (lang : string) (st : loop_state) (it : item) :
  loop_body reshape get_display str_float lang st it =
  (l ← computeLine it;
   mret {| items_data := items_data st ++ [line_row lang it l];
           total_without_vat := (total_without_vat st + line_subtotal l)%float;
           total_vat := (total_vat st + line_vat l)%float |}).
Proof.
  unfold loop_body, computeLine.
  destruct (float_of_int (quantity it)) as [q|e]; reflexivity.
Qed.

(** The loop adds to its state one row per item, made of the item's amounts
    as [computeLine] gives them, and adds the subtotals and the VAT amounts,
    unrounded and in order, to the two sums; it raises what [computeLine]
    raises, at the same item. *)
Lemma for_item_in_computeLine (lang : string) (items : list item) :
  forall st : loop_state,
    for_item_in lang items st =
    (lines ← mapM computeLine items;
     mret {| items_data := items_data st ++ zip_with (line_row lang) items lines;
             total_without_vat :=
               sum_from (total_without_vat st) (map line_subtotal lines);
             total_vat := sum_from (total_vat st) (map line_vat lines) |}).
Proof.
  induction items as [|it rest IH]; intros st.
  - destruct st; simpl. rewrite app_nil_r. reflexivity.
  - change (for_item_in lang (it :: rest) st)
      with (loop_body reshape get_display str_float lang st it
              ≫= for_item_in lang rest).
    rewrite loop_body_computeLine.
    change (mapM computeLine (it :: rest))
      with (y ← computeLine it; k ← mapM computeLine rest; mret (y :: k)).
    destruct (computeLine it) as [l|e]; result_simpl; [|reflexivity].
    rewrite IH.
    destruct (mapM computeLine rest) as [lines|e]; result_simpl;
      [|reflexivity].
    cbn [zip_with map sum_from fold_left items_data total_without_vat total_vat].
    rewrite <- app_assoc. reflexivity.
Qed.

(** The item table, in terms of the calculator: the header row, one row per
    item, and the totals rows showing the sum of the subtotals, the sum of
    the VAT amounts and the sum of these two. *)
Lemma items_block_computeTotals (items : list item)
    (lang_dict : gmap string pystr) (pc : pystr) (lang : string) :
  items_block reshape get_display str_float items lang_dict pc lang =
  (hdr ← items_header_row reshape get_display lang_dict lang;
   lines ← mapM computeLine items;
   t ← computeTotals items;
   labels ← totals_labels reshape get_display lang_dict lang;
   mret [Table (hdr :: zip_with (line_row lang) items lines
                ++ totals_block labels t)
               None 1 (items_table_style pc lang)]).
Proof.
  unfold items_block, items_header_row, totals_labels, computeTotals.
  simpl.
  repeat (match goal with
          | |- context [label lang_dict lang ?k] =>
            destruct (label lang_dict lang k); simpl; [|reflexivity]
          end).
  rewrite for_item_in_computeLine.
  destruct (mapM computeLine items) as [lines|e]; simpl; [|reflexivity].
  repeat (match goal with
          | |- context [label lang_dict lang ?k] =>
            destruct (label lang_dict lang k); simpl; [|reflexivity]
          end).
  reflexivity.
Qed.

End Financial.

(** The amounts of the sample item, and of two of them, as displayed. *)
Lemma sample_item_amounts :
  match computeLine sample_item with
  | Ok l => map format_2f [line_subtotal l; line_vat l; line_total l]
  | Raise _ => []
  end = [u "30.00"; u "5.70"; u "35.70"]
  /\ match computeTotals [sample_item; sample_item] with
     | Ok t => map format_2f [line_subtotal t; line_vat t; line_total t]
     | Raise _ => []
     end = [u "60.00"; u "11.40"; u "71.40"].
Proof. split; vm_compute; reflexivity. Qed.

(** The item table of an English invoice of two sample items. *)
Lemma sample_items_table :
  items_block sample_reshape sample_get_display sample_str_float
    [sample_item; sample_item] en_dict (u "#1a237e") "en"
  = Ok [Table
          [map CStr [u "Description"; u "Quantity"; u "Unit Price";
                     u "VAT (%)"; u "VAT Amount"; u "Total"];
           map CStr [u "Consulting"; u "3"; u "10.00"; u "19.0%";
                     u "5.70"; u "35.70"];
           map CStr [u "Consulting"; u "3"; u "10.00"; u "19.0%";
                     u "5.70"; u "35.70"];
           map CStr [[]; []; []; []; u "Subtotal:"; u "60.00"];
           map CStr [[]; []; []; []; u "Total VAT:"; u "11.40"];
           map CStr [[]; []; []; []; u "Total:"; u "71.40"]]
          None 1 (items_table_style (u "#1a237e") "en")].
Proof. vm_compute. reflexivity. Qed.

(** C1.  The item table is the calculator's: each item's row shows the
    amounts of [computeLine] (subtotal = quantity x unit price, VAT amount =
    subtotal x rate/100, line total = subtotal + VAT amount), and the totals
    rows show the sum of all subtotals, the sum of all VAT amounts and the sum
    of these two.  For the item of quantity 3, unit price 10.00 and VAT rate
    19 the amounts display as 30.00, 5.70 and 35.70, and for two such items
    the totals display as 60.00, 11.40 and 71.40. *)
Theorem financial_correctness :
  (forall (reshape get_display : pystr -> pystr) (str_float : float -> pystr)
          (items : list item) (lang_dict : gmap string pystr) (pc : pystr)
          (lang : string),
      items_block reshape get_display str_float items lang_dict pc lang =
      (hdr ← items_header_row reshape get_display lang_dict lang;
       lines ← mapM computeLine items;
       t ← computeTotals items;
       labels ← totals_labels reshape get_display lang_dict lang;
       mret [Table (hdr :: zip_with (line_row reshape get_display str_float lang)
                                    items lines
                    ++ totals_block labels t)
                   None 1 (items_table_style pc lang)]))
  /\ (forall it : item,
         computeLine it =
         (q ← float_of_int (quantity it);
          mret ((q * unit_price it)%float,
                (q * unit_price it * (vat_rate it / 100))%float,
                (q * unit_price it
                 + q * unit_price it * (vat_rate it / 100))%float)))
  /\ (forall items : list item,
         computeTotals items =
         (lines ← mapM computeLine items;
          mret (fold_left PrimFloat.add (map line_subtotal lines) 0%float,
                fold_left PrimFloat.add (map line_vat lines) 0%float,
                (fold_left PrimFloat.add (map line_subtotal lines) 0
                 + fold_left PrimFloat.add (map line_vat lines) 0)%float)))
  /\ match computeLine sample_item with
     | Ok l => map format_2f [line_subtotal l; line_vat l; line_total l]
     | Raise _ => []
     end = [u "30.00"; u "5.70"; u "35.70"]
  /\ match computeTotals [sample_item; sample_item] with
     | Ok t => map format_2f [line_subtotal t; line_vat t; line_total t]
     | Raise _ => []
     end = [u "60.00"; u "11.40"; u "71.40"]
  /\ items_rows
       (match items_block sample_reshape sample_get_display sample_str_float
                [sample_item; sample_item] en_dict (u "#1a237e") "en" with
        | Ok story => story
        | Raise _ => []
        end)
     = Some [map CStr [u "Description"; u "Quantity"; u "Unit Price";
                       u "VAT (%)"; u "VAT Amount"; u "Total"];
             map CStr [u "Consulting"; u "3"; u "10.00"; u "19.0%";
                       u "5.70"; u "35.70"];
             map CStr [u "Consulting"; u "3"; u "10.00"; u "19.0%";
                       u "5.70"; u "35.70"];
             map CStr [[]; []; []; []; u "Subtotal:"; u "60.00"];
             map CStr [[]; []; []; []; u "Total VAT:"; u "11.40"];
             map CStr [[]; []; []; []; u "Total:"; u "71.40"]].
Proof.
  split; [intros; apply items_block_computeTotals|].
  split; [intros it; reflexivity|].
  split; [intros items; reflexivity|].
  split; [apply sample_item_amounts|].
  split; [apply sample_item_amounts|].
  rewrite sample_items_table. reflexivity.
Qed.

(** ** Rounding of the displayed amounts *)

Lemma round_half_even_nearest (num den : Z) :
  (0 <= num)%Z -> (0 < den)%Z ->
  (0 <= round_half_even num den)%Z
  /\ (2 * Z.abs (round_half_even num den * den - num) <= den)%Z
  /\ ((2 * Z.abs (round_half_even num den * den - num) = den)%Z ->
      Z.even (round_half_even num den) = true).
Proof.
  intros Hnum Hden. unfold round_half_even.
  pose proof (Z.div_mod num den ltac:(lia)) as Hdm.
  pose proof (Z.mod_pos_bound num den Hden) as Hr.
  assert (0 <= num / den)%Z as Hq by (apply Z.div_pos; lia).
  set (q := (num / den)%Z) in *. set (r := (num mod den)%Z) in *.
  destruct (Z.ltb_spec (2 * r) den) as [Hlt|Hge].
  - split; [lia|]. split; [nia|]. intros Htie. nia.
  - destruct (Z.ltb_spec den (2 * r)) as [Hgt|Hle].
    + split; [lia|]. split; [nia|]. intros Htie. nia.
    + destruct (Z.even q) eqn:Heven.
      * split; [lia|]. split; [nia|]. intros _. exact Heven.
      * split; [lia|]. split; [nia|]. intros _.
        replace (q + 1)%Z with (Z.succ q) by lia.
        rewrite Z.even_succ, <- Z.negb_even, Heven. reflexivity.
Qed.

Lemma hundredths_nearest (m : positive) (e : Z) :
  (0 <= hundredths m e)%Z
  /\ ((0 <= e)%Z -> hundredths m e = (100 * Z.pos m * 2 ^ e)%Z)
  /\ ((e < 0)%Z ->
      (2 * Z.abs (hundredths m e * 2 ^ (- e) - 100 * Z.pos m) <= 2 ^ (- e))%Z
      /\ ((2 * Z.abs (hundredths m e * 2 ^ (- e) - 100 * Z.pos m)
           = 2 ^ (- e))%Z -> Z.even (hundredths m e) = true)).
Proof.
  unfold hundredths. destruct (Z.leb_spec 0 e) as [Hpos|Hneg].
  - split; [|split; [reflexivity | lia]].
    assert (0 < 2 ^ e)%Z by (apply Z.pow_pos_nonneg; lia). nia.
  - assert (0 < 2 ^ (- e))%Z as Hden by (apply Z.pow_pos_nonneg; lia).
    destruct (round_half_even_nearest (100 * Z.pos m) (2 ^ (- e))
                ltac:(lia) Hden) as (H0 & H1 & H2).
    split; [exact H0|]. split; [lia|]. intros _. split; assumption.
Qed.

Lemma fixed2_digits (n : Z) :
  (0 <= n)%Z ->
  exists d1 d0 : Z,
    fixed2 n = str_int (n / 100) ++ u "."
                 ++ [(48 + Z.to_N d1)%N; (48 + Z.to_N d0)%N]
    /\ (0 <= d1 <= 9)%Z /\ (0 <= d0 <= 9)%Z
    /\ n = (100 * (n / 100) + 10 * d1 + d0)%Z.
Proof.
  intros Hn. exists ((n mod 100) / 10)%Z, (n mod 10)%Z.
  split; [reflexivity|].
  Z.div_mod_to_equations. lia.
Qed.

(** C4, as stated, fails on a tie: the price 0.125 is displayed as 0.12,
    where rounding half away from zero gives 0.13. *)
Lemma half_tie_displayed_even :
  format_2f 0.125 = u "0.12"
  /\ format_2f_half_away 0.125 = u "0.13"
  /\ items_rows
       (match items_block sample_reshape sample_get_display sample_str_float
                [eighth_item] en_dict (u "#1a237e") "en" with
        | Ok story => story
        | Raise _ => []
        end)
     = Some [map CStr [u "Description"; u "Quantity"; u "Unit Price";
                       u "VAT (%)"; u "VAT Amount"; u "Total"];
             map CStr [u "Washer"; u "1"; u "0.12"; u "0.0%";
                       u "0.00"; u "0.12"];
             map CStr [[]; []; []; []; u "Subtotal:"; u "0.12"];
             map CStr [[]; []; []; []; u "Total VAT:"; u "0.00"];
             map CStr [[]; []; []; []; u "Total:"; u "0.12"]].
Proof. repeat split; vm_compute; reflexivity. Qed.

(** Three lines of 0.004 VAT each display 0.00, and their total displays
    0.01: the sums are taken over the unrounded amounts. *)
Lemma small_items_not_prerounded :
  items_rows
    (match items_block sample_reshape sample_get_display sample_str_float
             [small_item; small_item; small_item] en_dict (u "#1a237e") "en"
     with
     | Ok story => story
     | Raise _ => []
     end)
  = Some [map CStr [u "Description"; u "Quantity"; u "Unit Price";
                    u "VAT (%)"; u "VAT Amount"; u "Total"];
          map CStr [u "Sticker"; u "1"; u "0.40"; u "1.0%"; u "0.00"; u "0.40"];
          map CStr [u "Sticker"; u "1"; u "0.40"; u "1.0%"; u "0.00"; u "0.40"];
          map CStr [u "Sticker"; u "1"; u "0.40"; u "1.0%"; u "0.00"; u "0.40"];
          map CStr [[]; []; []; []; u "Subtotal:"; u "1.20"];
          map CStr [[]; []; []; []; u "Total VAT:"; u "0.01"];
          map CStr [[]; []; []; []; u "Total:"; u "1.21"]].
Proof. vm_compute. reflexivity. Qed.

(** ** What the composer does with any list of items *)

Lemma mapM_Ok_length {A B : Type} (f : A -> result B) (l : list A) :
  forall k : list B, mapM f l = Ok k -> length k = length l.
Proof.
  induction l as [|x l IH]; intros k H.
  - simpl in H. injection H as <-. reflexivity.
  - change (mapM f (x :: l)) with (y ← f x; k ← mapM f l; mret (y :: k)) in H.
    inv_bind H. inv_bind H. injection H as <-.
    simpl. f_equal. apply IH. assumption.
Qed.

Lemma mapM_computeLine_Ok (items : list item) :
  Forall (fun it => exists q, float_of_int (quantity it) = Ok q) items ->
  exists lines, mapM computeLine items = Ok lines.
Proof.
  induction 1 as [|it rest [q Hq] _ [lines IH]].
  - exists []. reflexivity.
  - change (mapM computeLine (it :: rest))
      with (y ← computeLine it; k ← mapM computeLine rest; mret (y :: k)).
    assert (exists l, computeLine it = Ok l) as [l Hl]
      by (unfold computeLine; rewrite Hq; eexists; reflexivity).
    rewrite Hl, IH. eexists. reflexivity.
Qed.

Section AnyItems.

Variable reshape : pystr -> pystr.
Variable get_display : pystr -> pystr.
Variable str_float : float -> pystr.

(** A composed item table, taken apart. *)
Lemma items_block_Ok (items : list item) (d : gmap string pystr)
    (pc : pystr) (lang : string) (story : list flowable) :
  items_block reshape get_display str_float items d pc lang = Ok story ->
  exists hdr lines t l1 l2 l3,
    mapM computeLine items = Ok lines
    /\ computeTotals items = Ok t
    /\ length hdr = 6%nat
    /\ story = [Table (hdr :: zip_with (line_row reshape get_display
                                                 str_float lang) items lines
                       ++ totals_block [l1; l2; l3] t)
                      None 1 (items_table_style pc lang)].
Proof.
  rewrite items_block_computeTotals. intros H.
  apply bind_Ok in H as (hdr & Hhdr & H).
  apply bind_Ok in H as (lines & Hlines & H).
  apply bind_Ok in H as (t & Ht & H).
  apply bind_Ok in H as (labels & Hlabels & H).
  pose proof (mapM_Ok_length _ _ _ Hlabels) as Hlen.
  destruct labels as [|l1 [|l2 [|l3 [|]]]]; try discriminate Hlen.
  injection H as <-. exists hdr, lines, t, l1, l2, l3.
  repeat split; try assumption.
  unfold items_header_row in Hhdr.
  apply bind_Ok in Hhdr as (l & Hl & Hhdr). injection Hhdr as <-.
  rewrite length_map. apply (mapM_Ok_length _ _ _ Hl).
Qed.

Lemma line_rows_six_cells (lang : string) (items : list item) :
  forall lines : list (float * float * float),
    Forall (fun row : list cell => length row = 6%nat)
           (zip_with (line_row reshape get_display str_float lang)
                     items lines).
Proof.
  induction items as [|it rest IH]; intros [|l lines]; simpl;
    constructor; [reflexivity | apply IH].
Qed.

(** The dictionaries of the three languages have the labels of the table. *)
Lemma supported_table_labels :
  Forall (fun lang =>
            exists d hdr labels,
              LANGUAGES !! lang = Some d
              /\ items_header_row reshape get_display d lang = Ok hdr
              /\ totals_labels reshape get_display d lang = Ok labels)
         supported_languages.
Proof.
  repeat constructor; eexists; eexists; eexists;
    (split; [reflexivity|]); split; reflexivity.
Qed.

End AnyItems.

(** ** The displayed amounts of a composed table *)

(** The amounts of the lines, item by item. *)
Lemma mapM_computeLine_Forall2 (items : list item) :
  forall lines : list (float * float * float),
    mapM computeLine items = Ok lines ->
    Forall2 (fun it l =>
               exists q : float,
                 float_of_int (quantity it) = Ok q
                 /\ l = ((q * unit_price it)%float,
                         (q * unit_price it * (vat_rate it / 100))%float,
                         (q * unit_price it
                          + q * unit_price it * (vat_rate it / 100))%float))
            items lines.
Proof.
  induction items as [|it rest IH]; intros lines H.
  - simpl in H. injection H as <-. constructor.
  - change (mapM computeLine (it :: rest))
      with (y ← computeLine it; k ← mapM computeLine rest; mret (y :: k)) in H.
    apply bind_Ok in H as (l & Hl & H).
    apply bind_Ok in H as (k & Hk & H).
    injection H as <-.
    constructor; [|apply IH; exact Hk].
    unfold computeLine in Hl.
    apply bind_Ok in Hl as (q & Hq & Hl).
    cbv zeta in Hl. injection Hl as <-.
    exists q. split; [exact Hq | reflexivity].
Qed.

(** C4, amended.  Amounts are not rounded to hundredths before they are
    displayed, and every displayed amount is rounded to the nearest
    hundredth with ties to the even one.

    First, [f"{x:.2f}"] of a finite value [(-1)^s * m * 2^e] is its sign
    followed by the nearest number of hundredths [n], printed with exactly
    two fractional digits; [n] is exact when the value is a whole number of
    hundredths ([0 <= e]), otherwise within half a hundredth, and on a tie
    [n] is the even neighbour (round-half-to-even, not half away from zero).

    Second, the loop sums the unrounded subtotals and VAT amounts.

    Third, in every composed table the cells of an item show its unit
    price, its VAT amount and its line total, each the unrounded float
    printed in this way, and the three totals rows show the sum of the
    unrounded subtotals, the sum of the unrounded VAT amounts and the sum of
    these two sums, each printed in this way.

    Last, three lines of 0.004 VAT display 0.00 each and 0.01 in total. *)
Theorem display_rounding :
  (forall (x : float) (s : bool) (m : positive) (e : Z),
      Prim2SF x = S754_finite s m e ->
      exists n d1 d0 : Z,
        format_2f x = sign_str s ++ str_int (n / 100) ++ u "."
                        ++ [(48 + Z.to_N d1)%N; (48 + Z.to_N d0)%N]
        /\ (0 <= d1 <= 9)%Z /\ (0 <= d0 <= 9)%Z
        /\ n = (100 * (n / 100) + 10 * d1 + d0)%Z
        /\ ((0 <= e)%Z -> n = (100 * Z.pos m * 2 ^ e)%Z)
        /\ ((e < 0)%Z ->
            (2 * Z.abs (n * 2 ^ (- e) - 100 * Z.pos m) <= 2 ^ (- e))%Z
            /\ ((2 * Z.abs (n * 2 ^ (- e) - 100 * Z.pos m) = 2 ^ (- e))%Z ->
                Z.even n = true)))
  /\ (forall (reshape get_display : pystr -> pystr)
             (str_float : float -> pystr) (lang : string)
             (items : list item) (st : loop_state),
         for_item_in reshape get_display str_float lang items st =
         (lines ← mapM computeLine items;
          mret {| items_data :=
                    items_data st
                    ++ zip_with (line_row reshape get_display str_float lang)
                                items lines;
                  total_without_vat :=
                    sum_from (total_without_vat st) (map line_subtotal lines);
                  total_vat :=
                    sum_from (total_vat st) (map line_vat lines) |}))
  /\ (forall (reshape get_display : pystr -> pystr)
             (str_float : float -> pystr) (items : list item)
             (d : gmap string pystr) (pc : pystr) (lang : string)
             (story : list flowable),
         items_block reshape get_display str_float items d pc lang
         = Ok story ->
         exists (hdr : list cell) (lines : list (float * float * float))
                (l1 l2 l3 : pystr),
           Forall2 (fun it l =>
                      exists q : float,
                        float_of_int (quantity it) = Ok q
                        /\ l = ((q * unit_price it)%float,
                                (q * unit_price it
                                 * (vat_rate it / 100))%float,
                                (q * unit_price it
                                 + q * unit_price it
                                   * (vat_rate it / 100))%float))
                   items lines
           /\ story
              = [Table
                   (hdr
                    :: zip_with
                         (fun it l =>
                            [CStr (reshape_if_arabic reshape get_display
                                     (description it) lang);
                             CStr (str_int (quantity it));
                             CStr (format_2f (unit_price it));
                             CStr (str_float (vat_rate it) ++ u "%");
                             CStr (format_2f l.1.2);
                             CStr (format_2f l.2)])
                         items lines
                    ++ [[CStr []; CStr []; CStr []; CStr [];
                         CStr (l1 ++ u ":");
                         CStr (format_2f
                                 (fold_left PrimFloat.add
                                    (map (fun l => l.1.1) lines) 0%float))];
                        [CStr []; CStr []; CStr []; CStr [];
                         CStr (l2 ++ u ":");
                         CStr (format_2f
                                 (fold_left PrimFloat.add
                                    (map (fun l => l.1.2) lines) 0%float))];
                        [CStr []; CStr []; CStr []; CStr [];
                         CStr (l3 ++ u ":");
                         CStr (format_2f
                                 (fold_left PrimFloat.add
                                    (map (fun l => l.1.1) lines) 0
                                  + fold_left PrimFloat.add
                                      (map (fun l => l.1.2) lines) 0)%float)]])
                   None 1 (items_table_style pc lang)])
  /\ items_rows
       (match items_block sample_reshape sample_get_display sample_str_float
                [small_item; small_item; small_item] en_dict (u "#1a237e")
                "en" with
        | Ok story => story
        | Raise _ => []
        end)
     = Some [map CStr [u "Description"; u "Quantity"; u "Unit Price";
                       u "VAT (%)"; u "VAT Amount"; u "Total"];
             map CStr [u "Sticker"; u "1"; u "0.40"; u "1.0%"; u "0.00";
                       u "0.40"];
             map CStr [u "Sticker"; u "1"; u "0.40"; u "1.0%"; u "0.00";
                       u "0.40"];
             map CStr [u "Sticker"; u "1"; u "0.40"; u "1.0%"; u "0.00";
                       u "0.40"];
             map CStr [[]; []; []; []; u "Subtotal:"; u "1.20"];
             map CStr [[]; []; []; []; u "Total VAT:"; u "0.01"];
             map CStr [[]; []; []; []; u "Total:"; u "1.21"]].
Proof.
  split; [|split; [|split]].
  - intros x s m e Hx. unfold format_2f. rewrite Hx.
    destruct (hundredths_nearest m e) as (Hn0 & Hpos & Hneg).
    destruct (fixed2_digits (hundredths m e) Hn0) as (d1 & d0 & Hfix & Hd).
    exists (hundredths m e), d1, d0. rewrite Hfix.
    repeat split; try apply Hd; try assumption; apply Hneg; assumption.
  - intros. apply for_item_in_computeLine.
  - intros reshape get_display str_float items d pc lang story H.
    apply items_block_Ok in H
      as (hdr & lines & t & l1 & l2 & l3 & Hlines & Ht & _ & ->).
    unfold computeTotals in Ht. rewrite Hlines in Ht.
    cbn [mbind mret result_bind result_ret] in Ht. cbv zeta in Ht.
    injection Ht as <-.
    exists hdr, lines, l1, l2, l3.
    split; [apply mapM_computeLine_Forall2; exact Hlines | reflexivity].
  - apply small_items_not_prerounded.
Qed.

Lemma display_rounding_witness :
  (Prim2SF 0.125%float = S754_finite false 4503599627370496 (-55)
   /\ exists n d1 d0 : Z,
        format_2f 0.125 = sign_str false ++ str_int (n / 100) ++ u "."
                            ++ [(48 + Z.to_N d1)%N; (48 + Z.to_N d0)%N]
        /\ (0 <= d1 <= 9)%Z /\ (0 <= d0 <= 9)%Z
        /\ n = (100 * (n / 100) + 10 * d1 + d0)%Z
        /\ ((0 <= -55)%Z -> n = (100 * 4503599627370496 * 2 ^ (-55))%Z)
        /\ ((-55 < 0)%Z ->
            (2 * Z.abs (n * 2 ^ (- -55) - 100 * 4503599627370496)
             <= 2 ^ (- -55))%Z
            /\ ((2 * Z.abs (n * 2 ^ (- -55) - 100 * 4503599627370496)
                 = 2 ^ (- -55))%Z -> Z.even n = true)))
  /\ exists story : list flowable,
       items_block sample_reshape sample_get_display sample_str_float
         [eighth_item; small_item] en_dict (u "#1a237e") "en" = Ok story
       /\ exists (hdr : list cell) (lines : list (float * float * float))
                 (l1 l2 l3 : pystr),
            Forall2 (fun it l =>
                       exists q : float,
                         float_of_int (quantity it) = Ok q
                         /\ l = ((q * unit_price it)%float,
                                 (q * unit_price it
                                  * (vat_rate it / 100))%float,
                                 (q * unit_price it
                                  + q * unit_price it
                                    * (vat_rate it / 100))%float))
                    [eighth_item; small_item] lines
            /\ story
               = [Table
                    (hdr
                     :: zip_with
                          (fun it l =>
                             [CStr (reshape_if_arabic sample_reshape
                                      sample_get_display (description it)
                                      "en");
                              CStr (str_int (quantity it));
                              CStr (format_2f (unit_price it));
                              CStr (sample_str_float (vat_rate it) ++ u "%");
                              CStr (format_2f l.1.2);
                              CStr (format_2f l.2)])
                          [eighth_item; small_item] lines
                     ++ [[CStr []; CStr []; CStr []; CStr [];
                          CStr (l1 ++ u ":");
                          CStr (format_2f
                                  (fold_left PrimFloat.add
                                     (map (fun l => l.1.1) lines) 0%float))];
                         [CStr []; CStr []; CStr []; CStr [];
                          CStr (l2 ++ u ":");
                          CStr (format_2f
                                  (fold_left PrimFloat.add
                                     (map (fun l => l.1.2) lines) 0%float))];
                         [CStr []; CStr []; CStr []; CStr [];
                          CStr (l3 ++ u ":");
                          CStr (format_2f
                                  (fold_left PrimFloat.add
                                     (map (fun l => l.1.1) lines) 0
                                   + fold_left PrimFloat.add
                                       (map (fun l => l.1.2) lines)
                                       0)%float)]])
                    None 1 (items_table_style (u "#1a237e") "en")].
Proof.
  split.
  - split; [reflexivity|].
    apply (proj1 display_rounding 0.125%float false
             4503599627370496%positive (-55)%Z).
    reflexivity.
  - eexists. split; [vm_compute; reflexivity|].
    apply (proj1 (proj2 (proj2 display_rounding)) sample_reshape
             sample_get_display sample_str_float [eighth_item; small_item]
             en_dict (u "#1a237e") "en"%string).
    vm_compute. reflexivity.
Defined.

(** ** No items *)

(** C5.  With no item the table still has its three totals rows, each
    showing 0.00, in every dictionary with the labels, and in particular in
    the three languages; and pressing the download button with no item shows
    the error message and builds no document. *)
Theorem zero_items :
  (forall (reshape get_display : pystr -> pystr) (str_float : float -> pystr)
          (d : gmap string pystr) (pc : pystr) (lang : string)
          (story : list flowable),
      items_block reshape get_display str_float [] d pc lang = Ok story ->
      exists hdr l1 l2 l3,
        story =
        [Table [hdr;
                map CStr [[]; []; []; []; l1 ++ u ":"; u "0.00"];
                map CStr [[]; []; []; []; l2 ++ u ":"; u "0.00"];
                map CStr [[]; []; []; []; l3 ++ u ":"; u "0.00"]]
               None 1 (items_table_style pc lang)])
  /\ Forall (fun lang =>
               forall (reshape get_display : pystr -> pystr)
                      (str_float : float -> pystr) (pc : pystr),
               exists d story,
                 LANGUAGES !! lang = Some d
                 /\ items_block reshape get_display str_float [] d pc lang
                    = Ok story)
            supported_languages
  /\ (forall (reshape get_display : pystr -> pystr)
             (str_float : float -> pystr) (now : datetime) (lang : string)
             (pc : pystr) (data : invoice_data) (r : st_call),
         main_download reshape get_display str_float now lang pc data []
         = Ok r ->
         r = st_error (no_item_message lang))
  /\ Forall (fun lang =>
               forall (reshape get_display : pystr -> pystr)
                      (str_float : float -> pystr) (now : datetime)
                      (pc : pystr) (data : invoice_data),
                 main_download reshape get_display str_float now lang pc
                   data []
                 = Ok (st_error (no_item_message lang)))
            supported_languages.
Proof.
  split; [|split; [|split]].
  - intros reshape get_display str_float d pc lang story H.
    apply items_block_Ok in H
      as (hdr & lines & t & l1 & l2 & l3 & Hl & Ht & _ & ->).
    injection Hl as <-. injection Ht as <-.
    exists hdr, l1, l2, l3. reflexivity.
  - repeat constructor; intros reshape get_display str_float pc;
      eexists; eexists; (split; [reflexivity|]); reflexivity.
  - intros reshape get_display str_float now lang pc data r H.
    unfold main_download in H.
    inv_bind H. inv_bind H. injection H as <-. reflexivity.
  - repeat constructor; intros; reflexivity.
Qed.

Lemma zero_items_witness :
  (items_block sample_reshape sample_get_display sample_str_float [] en_dict
     (u "#1a237e") "en"
   = Ok [Table [map CStr [u "Description"; u "Quantity"; u "Unit Price";
                          u "VAT (%)"; u "VAT Amount"; u "Total"];
                map CStr [[]; []; []; []; u "Subtotal:"; u "0.00"];
                map CStr [[]; []; []; []; u "Total VAT:"; u "0.00"];
                map CStr [[]; []; []; []; u "Total:"; u "0.00"]]
               None 1 (items_table_style (u "#1a237e") "en")]
   /\ exists hdr l1 l2 l3,
        [Table [map CStr [u "Description"; u "Quantity"; u "Unit Price";
                          u "VAT (%)"; u "VAT Amount"; u "Total"];
                map CStr [[]; []; []; []; u "Subtotal:"; u "0.00"];
                map CStr [[]; []; []; []; u "Total VAT:"; u "0.00"];
                map CStr [[]; []; []; []; u "Total:"; u "0.00"]]
               None 1 (items_table_style (u "#1a237e") "en")]
        = [Table [hdr;
                  map CStr [[]; []; []; []; l1 ++ u ":"; u "0.00"];
                  map CStr [[]; []; []; []; l2 ++ u ":"; u "0.00"];
                  map CStr [[]; []; []; []; l3 ++ u ":"; u "0.00"]]
                 None 1 (items_table_style (u "#1a237e") "en")])
  /\ (main_download sample_reshape sample_get_display sample_str_float
        (sample_now 10 30 0) "fr" (u "#1a237e") sample_data []
      = Ok (st_error (u "Veuillez ajouter au moins un article."))
      /\ st_error (u "Veuillez ajouter au moins un article.")
         = st_error (no_item_message "fr")).
Proof.
  split; (split; [vm_compute; reflexivity|]).
  - apply (proj1 zero_items sample_reshape sample_get_display
             sample_str_float en_dict (u "#1a237e") "en"%string).
    vm_compute. reflexivity.
  - apply (proj1 (proj2 (proj2 zero_items)) sample_reshape sample_get_display
             sample_str_float (sample_now 10 30 0) "fr"%string (u "#1a237e")
             sample_data).
    vm_compute. reflexivity.
Defined.

(** ** Items outside the bounds of the specification *)

(** C6, as stated, fails: an item of quantity -1 is outside the bounds, and
    the download branch composes the document from it, negative amounts
    included, instead of rejecting it. *)
Lemma negative_quantity_composed :
  within_bounds negative_item = false
  /\ exists story,
       main_download sample_reshape sample_get_display sample_str_float
         (sample_now 10 30 0) "en" (u "#1a237e") sample_data [negative_item]
       = Ok (st_download_button (u "Download") story
               (u "Invoice_1a2b3c4d.pdf") (u "application/pdf"))
       /\ items_rows story
          = Some [map CStr [u "Description"; u "Quantity"; u "Unit Price";
                            u "VAT (%)"; u "VAT Amount"; u "Total"];
                  map CStr [u "Refund"; u "-1"; u "10.00"; u "19.0%";
                            u "-1.90"; u "-11.90"];
                  map CStr [[]; []; []; []; u "Subtotal:"; u "-10.00"];
                  map CStr [[]; []; []; []; u "Total VAT:"; u "-1.90"];
                  map CStr [[]; []; []; []; u "Total:"; u "-11.90"]].
Proof.
  split; [vm_compute; reflexivity|].
  eexists. split; [vm_compute; reflexivity|].
  vm_compute. reflexivity.
Qed.

(** C6, amended.  The composer checks no bound on quantity, unit price or
    VAT rate: whatever their values, as long as each quantity converts to a
    float, the item table is composed in each of the three languages, it has
    one row per item between the header row and the three totals rows, and
    each item's row shows the item's own quantity, unit price and VAT rate
    (nothing is clamped). *)
Theorem no_validation_no_clamping
    (reshape get_display : pystr -> pystr) (str_float : float -> pystr)
    (items : list item) (pc : pystr) :
  Forall (fun it => exists q, float_of_int (quantity it) = Ok q) items ->
  Forall (fun lang =>
            exists d story rows,
              LANGUAGES !! lang = Some d
              /\ items_block reshape get_display str_float items d pc lang
                 = Ok story
              /\ items_rows story = Some rows
              /\ length rows = (length items + 4)%nat
              /\ forall (i : nat) (it : item),
                   items !! i = Some it ->
                   exists row,
                     rows !! S i = Some row
                     /\ row !! 1%nat = Some (CStr (str_int (quantity it)))
                     /\ row !! 2%nat
                        = Some (CStr (format_2f (unit_price it)))
                     /\ row !! 3%nat
                        = Some (CStr (str_float (vat_rate it) ++ u "%")))
         supported_languages.
Proof.
  intros Hq. destruct (mapM_computeLine_Ok items Hq) as [lines Hlines].
  pose proof (mapM_Ok_length _ _ _ Hlines) as Hlen.
  eapply Forall_impl;
    [apply (supported_table_labels reshape get_display)|].
  intros lang (d & hdr & labels & Hd & Hhdr & Hlabels); simpl.
  pose proof (mapM_Ok_length _ _ _ Hlabels) as Hlen3.
  destruct labels as [|l1 [|l2 [|l3 [|]]]]; try discriminate Hlen3.
  exists d. eexists. eexists. split; [exact Hd|].
  split.
  { rewrite items_block_computeTotals. unfold computeTotals.
    rewrite Hhdr, Hlines, Hlabels. reflexivity. }
  split; [reflexivity|].
  split.
  { simpl. rewrite length_app, length_zip_with. simpl. lia. }
  intros i it Hi.
  destruct (lookup_lt_is_Some_2 lines i) as [l Hl].
  { rewrite Hlen. apply lookup_lt_is_Some_1. eauto. }
  exists (line_row reshape get_display str_float lang it l).
  split; [|repeat split; reflexivity].
  simpl. rewrite lookup_app_l.
  - rewrite lookup_zip_with, Hi. simpl. rewrite Hl. reflexivity.
  - rewrite length_zip_with. apply lookup_lt_Some in Hi. lia.
Qed.

Lemma no_validation_no_clamping_witness :
  Forall (fun it => exists q, float_of_int (quantity it) = Ok q)
         [negative_item; sample_item]
  /\ Forall (fun lang =>
               exists d story rows,
                 LANGUAGES !! lang = Some d
                 /\ items_block sample_reshape sample_get_display
                      sample_str_float [negative_item; sample_item] d
                      (u "#1a237e") lang
                    = Ok story
                 /\ items_rows story = Some rows
                 /\ length rows = (length [negative_item; sample_item] + 4)%nat
                 /\ forall (i : nat) (it : item),
                      [negative_item; sample_item] !! i = Some it ->
                      exists row,
                        rows !! S i = Some row
                        /\ row !! 1%nat = Some (CStr (str_int (quantity it)))
                        /\ row !! 2%nat
                           = Some (CStr (format_2f (unit_price it)))
                        /\ row !! 3%nat
                           = Some (CStr (sample_str_float (vat_rate it)
                                         ++ u "%")))
            supported_languages.
Proof.
  assert (Forall (fun it => exists q, float_of_int (quantity it) = Ok q)
                 [negative_item; sample_item]) as H
    by (repeat constructor; eexists; vm_compute; reflexivity).
  split; [exact H|].
  exact (no_validation_no_clamping sample_reshape sample_get_display
           sample_str_float [negative_item; sample_item] (u "#1a237e") H).
Defined.

(** ** The style of the item table *)

Ltac style_cases :=
  cbv [has_grid background_of textcolor_of lineabove_of items_table_style
       existsb fold_left covers cmd_block resolve fst snd];
  repeat match goal with
         | |- context [(Z.neg ?p <? 0)%Z] => change (Z.neg p <? 0)%Z with true
         | |- context [(0 <? 0)%Z] => change (0 <? 0)%Z with false
         | |- context [(1 <? 0)%Z] => change (1 <? 0)%Z with false
         end;
  cbv iota;
  repeat match goal with
         | |- context [(?a <=? ?b)%Z] => destruct (Z.leb_spec a b)
         | |- context [(?a =? ?b)%Z] => destruct (Z.eqb_spec a b)
         end;
  cbn [andb orb]; try reflexivity; try lia.

(** The cells of a table of six columns and [n] rows, under the style. *)
Lemma items_table_style_cells (pc : pystr) (lang : string) (n c r : Z) :
  (4 <= n)%Z -> (0 <= c < 6)%Z -> (0 <= r < n)%Z ->
  background_of 6 n (items_table_style pc lang) c r
  = (if (r =? 0)%Z then Some (HexColor pc) else None)
  /\ textcolor_of 6 n (items_table_style pc lang) c r
     = (if (r =? 0)%Z then Some whitesmoke else None)
  /\ has_grid 6 n (items_table_style pc lang) c r = (r <=? n - 2)%Z
  /\ lineabove_of 6 n (items_table_style pc lang) c r
     = (if (r =? n - 3)%Z && (4 <=? c)%Z then Some (HexColor pc) else None).
Proof.
  intros Hn Hc Hr. repeat split; style_cases.
Qed.

(** C7, as stated, fails: in the table of one item (rows 0 to 4: header,
    item, subtotal, total VAT, total) the grid is also on the header row,
    which is not a data row, and on the first two of the three totals rows;
    only the last row is left out. *)
Lemma grid_beyond_data_rows :
  map (has_grid 6 5 (items_table_style (u "#1a237e") "en") 0)
      [0; 1; 2; 3; 4]%Z
  = [true; true; true; true; false].
Proof. vm_compute. reflexivity. Qed.

(** C7, amended.  In the style of the item table the header row has the
    accent colour as background and light (whitesmoke) text, and no other row
    has a background; grid lines are on the header row and on every item row,
    and not on the last (grand total) row; a line in the accent colour is
    drawn above the first of the three totals rows, over its label and value
    cells, and nowhere else. *)
Theorem items_table_style_rows
    (reshape get_display : pystr -> pystr) (str_float : float -> pystr)
    (items : list item) (d : gmap string pystr) (pc : pystr) (lang : string)
    (story : list flowable) :
  items_block reshape get_display str_float items d pc lang = Ok story ->
  exists rows,
    story = [Table rows None 1 (items_table_style pc lang)]
    /\ length rows = (length items + 4)%nat
    /\ Forall (fun row => length row = 6%nat) rows
    /\ forall c : Z, (0 <= c < 6)%Z ->
         let n := Z.of_nat (length rows) in
         let style := items_table_style pc lang in
         background_of 6 n style c 0 = Some (HexColor pc)
         /\ textcolor_of 6 n style c 0 = Some whitesmoke
         /\ (forall r : Z, (1 <= r < n)%Z -> background_of 6 n style c r = None)
         /\ (forall r : Z, (0 <= r <= Z.of_nat (length items))%Z ->
               has_grid 6 n style c r = true)
         /\ has_grid 6 n style c (n - 1) = false
         /\ (forall r : Z, (0 <= r < n)%Z ->
               lineabove_of 6 n style c r
               = if (r =? Z.of_nat (length items) + 1)%Z && (4 <=? c)%Z
                 then Some (HexColor pc) else None).
Proof.
  intros H.
  apply items_block_Ok in H
    as (hdr & lines & t & l1 & l2 & l3 & Hl & Ht & Hhdr & ->).
  pose proof (mapM_Ok_length _ _ _ Hl) as Hlen.
  eexists. split; [reflexivity|].
  assert (length (hdr :: zip_with (line_row reshape get_display str_float lang)
                              items lines ++ totals_block [l1; l2; l3] t)
          = (length items + 4)%nat) as Hrows.
  { simpl. rewrite length_app, length_zip_with. simpl. lia. }
  split; [exact Hrows|]. split.
  { constructor; [exact Hhdr|]. apply Forall_app. split.
    - apply line_rows_six_cells.
    - repeat constructor. }
  intros c Hc n style. subst n style. rewrite Hrows.
  set (n := Z.of_nat (length items + 4)).
  assert (n = Z.of_nat (length items) + 4)%Z as Hn by lia.
  assert (4 <= n)%Z as Hn4 by lia.
  repeat split.
  - apply (items_table_style_cells pc lang n c 0); lia.
  - apply (items_table_style_cells pc lang n c 0); lia.
  - intros r Hr.
    destruct (items_table_style_cells pc lang n c r Hn4 Hc ltac:(lia))
      as (Hb & _). rewrite Hb.
    destruct (Z.eqb_spec r 0); [lia | reflexivity].
  - intros r Hr.
    destruct (items_table_style_cells pc lang n c r Hn4 Hc ltac:(lia))
      as (_ & _ & Hg & _). rewrite Hg. apply Z.leb_le. lia.
  - destruct (items_table_style_cells pc lang n c (n - 1) Hn4 Hc ltac:(lia))
      as (_ & _ & Hg & _). rewrite Hg. apply Z.leb_gt. lia.
  - intros r Hr.
    destruct (items_table_style_cells pc lang n c r Hn4 Hc Hr)
      as (_ & _ & _ & Hla). rewrite Hla.
    replace (n - 3)%Z with (Z.of_nat (length items) + 1)%Z by lia.
    reflexivity.
Qed.

Lemma items_table_style_rows_witness :
  exists story,
    items_block sample_reshape sample_get_display sample_str_float
      [sample_item; sample_item] en_dict (u "#1a237e") "en" = Ok story
    /\ exists rows,
         story = [Table rows None 1 (items_table_style (u "#1a237e") "en")]
         /\ length rows = (length [sample_item; sample_item] + 4)%nat
         /\ Forall (fun row => length row = 6%nat) rows
         /\ forall c : Z, (0 <= c < 6)%Z ->
              let n := Z.of_nat (length rows) in
              let style := items_table_style (u "#1a237e") "en" in
              background_of 6 n style c 0 = Some (HexColor (u "#1a237e"))
              /\ textcolor_of 6 n style c 0 = Some whitesmoke
              /\ (forall r : Z, (1 <= r < n)%Z ->
                    background_of 6 n style c r = None)
              /\ (forall r : Z,
                    (0 <= r <= Z.of_nat (length [sample_item; sample_item]))%Z ->
                    has_grid 6 n style c r = true)
              /\ has_grid 6 n style c (n - 1) = false
              /\ (forall r : Z, (0 <= r < n)%Z ->
                    lineabove_of 6 n style c r
                    = if (r =? Z.of_nat (length [sample_item; sample_item]) + 1)%Z
                         && (4 <=? c)%Z
                      then Some (HexColor (u "#1a237e")) else None).
Proof.
  eexists. split; [apply sample_items_table|].
  apply (items_table_style_rows sample_reshape sample_get_display
           sample_str_float [sample_item; sample_item] en_dict
           (u "#1a237e") "en"%string).
  apply sample_items_table.
Defined.

(** ** The clock *)

Section Clock.

Variable reshape : pystr -> pystr.
Variable get_display : pystr -> pystr.
Variable str_float : float -> pystr.








End Clock.





(** ** The title of the header *)

Lemma find_none_forallb {A : Type} (f g : A -> bool) (l : list A) :
  forallb g l = true -> (forall x, g x = true -> f x = false) ->
  find f l = None.
Proof.
  intros Hl Hfg. induction l as [|x l IH]; [reflexivity|].
  simpl in Hl. apply andb_true_iff in Hl as [Hx Hl].
  simpl. rewrite (Hfg x Hx). apply IH, Hl.
Qed.

Section Caseless.

(** The code points from [first] to [last] lie between the blocks of
    [arabic_or_caseless], or are the small ASCII letters. *)
Local Abbreviation cased_zone first last :=
  ((97 <=? first) && (last <=? 122)
   || (128 <=? first) && (last <? 1536)
   || (1791 <? first) && (last <? 64336)
   || (65023 <? first) && (last <? 65136)
   || (65279 <? first))%N.

Lemma cased_zone_spec (c first last : N) :
  cased_zone first last = true -> arabic_or_caseless c = true ->
  (first <=? c)%N && (c <=? last)%N = false.
Proof.
  unfold arabic_or_caseless. intros Hz Hc.
  rewrite !orb_true_iff, !andb_true_iff, !N.ltb_lt, !N.leb_le in Hz.
  rewrite !orb_true_iff, !andb_true_iff, !N.ltb_lt, !N.leb_le in Hc.
  apply not_true_is_false. rewrite andb_true_iff, !N.leb_le. lia.
Qed.

(** Every entry of the two upper-case tables lies in such a zone. *)
Lemma upper_tables_cased :
  forallb (fun r : N * N * N * N => cased_zone r.1.1.1 r.1.1.2) upper_simple
  = true
  /\ forallb (fun p : N * pystr => cased_zone p.1 p.1) upper_special = true.
Proof. split; vm_compute; reflexivity. Qed.

(** [str.upper] leaves the code points of the scripts without case as they
    are. *)
Lemma upper_cp_caseless (c : N) :
  arabic_or_caseless c = true -> upper_cp c = [c].
Proof.
  intros Hc. destruct upper_tables_cased as [Hsimple Hspecial].
  unfold upper_cp.
  rewrite (find_none_forallb _ _ _ Hspecial).
  - rewrite (find_none_forallb _ _ _ Hsimple); [reflexivity|].
    intros [[[first last] step] image] Hz. unfold in_run.
    cbn [fst snd] in Hz. rewrite (cased_zone_spec c first last Hz Hc).
    reflexivity.
  - intros [k s] Hz. cbn [fst snd] in Hz |- *.
    pose proof (cased_zone_spec c k k Hz Hc) as Hk.
    apply N.eqb_neq. intros ->.
    rewrite !N.leb_refl in Hk. discriminate Hk.
Qed.

End Caseless.

Lemma upper_caseless (s : pystr) :
  forallb arabic_or_caseless s = true -> upper s = s.
Proof.
  induction s as [|c r IH]; [reflexivity|].
  intros H. apply andb_true_iff in H as [Hc Hr].
  unfold upper. simpl. rewrite (upper_cp_caseless c Hc).
  fold (upper r). rewrite (IH Hr). reflexivity.
Qed.

(** The header paragraph of a composed story is [header_html] of the
    record and of three labels. *)
Lemma create_header_text
    (reshape get_display : pystr -> pystr) (str_float : float -> pystr)
    (now : datetime) (data : invoice_data) (items : list item)
    (d : gmap string pystr) (pc : pystr) (lang : string)
    (story : list flowable) :
  create_modern_invoice_pdf reshape get_display str_float now data items d
    pc lang = Ok story ->
  exists number_label date_label due_date_label,
    header_text story
    = Some (header_html reshape get_display now data pc lang
              number_label date_label due_date_label).
Proof.
  intros H. unfold create_modern_invoice_pdf in H.
  apply bind_Ok in H as (header & Hheader & H).
  repeat (let x := fresh "b" in
          let Hx := fresh "Hb" in
          apply bind_Ok in H as (x & Hx & H)).
  injection H as <-.
  unfold header_block in Hheader.
  apply bind_Ok in Hheader as (l1 & _ & Hheader).
  apply bind_Ok in Hheader as (l2 & _ & Hheader).
  apply bind_Ok in Hheader as (l3 & _ & Hheader).
  injection Hheader as <-.
  exists l1, l2, l3. reflexivity.
Qed.

(** The document types that the program offers. *)
Lemma DOC_TYPE_OPTIONS_Ok :
  DOC_TYPE_OPTIONS
  = Ok (list_to_map [("en"%string, [u "Invoice"; u "Quote"]);
                     ("fr"%string, [u "Facture"; u "Devis"]);
                     ("ar"%string, [u "فاتورة"; u "عرض سعر"])]).
Proof. vm_compute. reflexivity. Qed.

Lemma doc_type_options_inv (lang : string) (types : list pystr) :
  doc_type_options lang = Ok types ->
  (lang = "en"%string /\ types = [u "Invoice"; u "Quote"])
  \/ (lang = "fr"%string /\ types = [u "Facture"; u "Devis"])
  \/ (lang = "ar"%string /\ types = [u "فاتورة"; u "عرض سعر"]).
Proof.
  unfold doc_type_options. rewrite DOC_TYPE_OPTIONS_Ok.
  cbn [mbind result_bind]. unfold getitem.
  destruct (decide (lang = "en"%string)) as [->|Hen];
    [intros H; vm_compute in H; injection H as <-; left; split;
     reflexivity|].
  destruct (decide (lang = "fr"%string)) as [->|Hfr];
    [intros H; vm_compute in H; injection H as <-; right; left; split;
     reflexivity|].
  destruct (decide (lang = "ar"%string)) as [->|Har];
    [intros H; vm_compute in H; injection H as <-; right; right; split;
     reflexivity|].
  rewrite not_elem_of_list_to_map_1;
    [cbv beta iota; intros H; discriminate H|].
  simpl. rewrite !not_elem_of_cons.
  repeat split; try assumption. apply not_elem_of_nil.
Qed.

(** C8.  The title of the header is the document type as shaped for the
    language, in upper case where its script has a case and as it is where
    it has none.
    - In a language other than Arabic the title is the document type in
      upper case; for the document types that the program offers in English
      and in French it reads INVOICE, QUOTE, FACTURE or DEVIS.
    - A shaped title made of Arabic letters, of their presentation forms or
      of other characters without case is placed as it is.  In Arabic, each
      of the two document types that the program offers is made of Arabic
      letters and goes through the shaping libraries; when what they return
      is made of Arabic letters and of their forms, as the shaping of Arabic
      text is, the title of the header is this shaped text, unchanged.
    The program does not test the language for this: it applies
    [str.upper] to every title (line 226), and [str.upper] changes no
    character of a script without case. *)
Theorem title_case
    (reshape get_display : pystr -> pystr) (str_float : float -> pystr)
    (now : datetime) (data : invoice_data) (items : list item)
    (d : gmap string pystr) (pc : pystr) (lang : string)
    (story : list flowable) :
  create_modern_invoice_pdf reshape get_display str_float now data items d
    pc lang = Ok story ->
  exists title post : pystr,
    header_text story
    = Some (nl4 ++ u "<font color=" ++ dq ++ pc ++ dq ++ u " size=" ++ dq
            ++ u "18" ++ dq ++ u "><b>" ++ title ++ u "</b></font><br/>"
            ++ post)
    /\ title
       = upper (reshape_if_arabic reshape get_display (doc_type data) lang)
    /\ (lang <> "ar"%string ->
        title = upper (doc_type data)
        /\ forall types : list pystr,
             doc_type_options lang = Ok types ->
             In (doc_type data) types ->
             In (doc_type data, title)
                [(u "Invoice", u "INVOICE"); (u "Quote", u "QUOTE");
                 (u "Facture", u "FACTURE"); (u "Devis", u "DEVIS")])
    /\ (forallb arabic_or_caseless
          (reshape_if_arabic reshape get_display (doc_type data) lang)
        = true ->
        title = reshape_if_arabic reshape get_display (doc_type data) lang)
    /\ (lang = "ar"%string ->
        forall types : list pystr,
          doc_type_options lang = Ok types ->
          In (doc_type data) types ->
          forallb arabic_or_caseless (doc_type data) = true
          /\ reshape_if_arabic reshape get_display (doc_type data) lang
             = get_display (reshape (doc_type data))
          /\ (forallb arabic_or_caseless
                (get_display (reshape (doc_type data))) = true ->
              title = get_display (reshape (doc_type data)))).
Proof.
  intros H. apply create_header_text in H as (l1 & l2 & l3 & Hh).
  exists (upper (reshape_if_arabic reshape get_display (doc_type data) lang)).
  eexists. split; [rewrite Hh; unfold header_html; reflexivity|].
  split; [reflexivity|]. split; [|split].
  - intros Hlang.
    rewrite (reshape_if_arabic_unchanged_lang reshape get_display _ lang
               Hlang).
    split; [reflexivity|]. intros types Ht Hin.
    apply doc_type_options_inv in Ht as [[-> ->]|[[-> ->]|[-> _]]].
    + cbn [In] in Hin |- *. destruct Hin as [<-|[<-|[]]].
      * left. vm_compute. reflexivity.
      * right. left. vm_compute. reflexivity.
    + cbn [In] in Hin |- *. destruct Hin as [<-|[<-|[]]].
      * right. right. left. vm_compute. reflexivity.
      * right. right. right. left. vm_compute. reflexivity.
    + exfalso. apply Hlang. reflexivity.
  - intros Hc. apply upper_caseless. exact Hc.
  - intros -> types Ht Hin.
    apply doc_type_options_inv in Ht as [[E _]|[[E _]|[_ ->]]];
      [discriminate E | discriminate E |].
    cbn [In] in Hin. destruct Hin as [<-|[<-|[]]].
    + split; [vm_compute; reflexivity|]. split; [reflexivity|].
      intros Hc. exact (upper_caseless _ Hc).
    + split; [vm_compute; reflexivity|]. split; [reflexivity|].
      intros Hc. exact (upper_caseless _ Hc).
Qed.

Lemma title_case_witness :
  exists story : list flowable,
    create_modern_invoice_pdf sample_reshape sample_get_display
      sample_str_float (sample_now 10 30 0)
      (with_doc_type sample_data (u "عرض سعر")) [sample_item] ar_dict
      (u "#1a237e") "ar" = Ok story
    /\ doc_type_options "ar" = Ok [u "فاتورة"; u "عرض سعر"]
    /\ forallb arabic_or_caseless
         (sample_get_display (sample_reshape (u "عرض سعر"))) = true
    /\ exists post : pystr,
         header_text story
         = Some (nl4 ++ u "<font color=" ++ dq ++ u "#1a237e" ++ dq
                 ++ u " size=" ++ dq ++ u "18" ++ dq ++ u "><b>"
                 ++ [65198; 65228; 65203; 32; 65213; 65198; 65227]%N
                 ++ u "</b></font><br/>" ++ post).
Proof.
  eexists. split; [vm_compute; reflexivity|].
  split; [vm_compute; reflexivity|].
  split; [vm_compute; reflexivity|].
  match goal with
  | |- context [header_text ?s] =>
    destruct (title_case sample_reshape sample_get_display sample_str_float
                (sample_now 10 30 0)
                (with_doc_type sample_data (u "عرض سعر")) [sample_item]
                ar_dict (u "#1a237e") "ar"%string s)
      as (title & post & Hh & _ & _ & _ & Har)
  end; [vm_compute; reflexivity|].
  destruct (Har eq_refl [u "فاتورة"; u "عرض سعر"]) as (_ & _ & Htitle).
  - vm_compute. reflexivity.
  - right. left. reflexivity.
  - exists post.
    rewrite Hh, (Htitle ltac:(vm_compute; reflexivity)). reflexivity.
Defined.

(** ** The accept-checks line *)

(** C10.  When the accept-checks flag is set, the line added to the story is
    the label in bold followed by the literal "Yes", in every language and
    whatever the dictionary holds: the word is never looked up.  For Arabic
    the word goes through the shaper, which is taken to leave this text
    without Arabic letters as it is. *)
Theorem affirmation_is_yes
    (reshape get_display : pystr -> pystr) (data : invoice_data)
    (d : gmap string pystr) (lang : string) (story : list flowable) :
  lang <> "ar"%string \/ get_display (reshape (u "Yes")) = u "Yes" ->
  accept_checks data = true ->
  accept_checks_block reshape get_display data d lang = Ok story ->
  exists v,
    d !! "accept_checks"%string = Some v
    /\ story
       = [Spacer 1 10;
          Paragraph (u "<b>" ++ reshape_if_arabic reshape get_display v lang
                     ++ u "</b> " ++ u "Yes")
                    (NormalArabic lang)].
Proof.
  intros Hyes Hflag H. unfold accept_checks_block in H. rewrite Hflag in H.
  apply bind_Ok in H as (label_ac & Hlabel & H).
  unfold label, getitem in Hlabel.
  destruct (d !! "accept_checks"%string) as [v|] eqn:Hv; [|discriminate].
  injection Hlabel as <-. injection H as <-.
  exists v. split; [reflexivity|].
  unfold accept_checks_text.
  assert (reshape_if_arabic reshape get_display (u "Yes") lang = u "Yes")
    as ->; [|reflexivity].
  destruct Hyes as [Hlang|Hlib].
  - apply reshape_if_arabic_unchanged_lang, Hlang.
  - unfold reshape_if_arabic.
    destruct ((lang =? "ar")%string && truthy (strip (u "Yes")));
      [exact Hlib | reflexivity].
Qed.

Lemma affirmation_is_yes_witness :
  ("ar"%string <> "ar"%string
   \/ sample_get_display (sample_reshape (u "Yes")) = u "Yes")
  /\ accept_checks sample_data = true
  /\ exists story,
       accept_checks_block sample_reshape sample_get_display sample_data
         ar_dict "ar" = Ok story
       /\ exists v,
            ar_dict !! "accept_checks"%string = Some v
            /\ story
               = [Spacer 1 10;
                  Paragraph (u "<b>"
                             ++ reshape_if_arabic sample_reshape
                                  sample_get_display v "ar"
                             ++ u "</b> " ++ u "Yes")
                            (NormalArabic "ar")].
Proof.
  split; [right; reflexivity|]. split; [reflexivity|].
  eexists. split; [vm_compute; reflexivity|].
  apply (affirmation_is_yes sample_reshape sample_get_display sample_data
           ar_dict "ar"%string).
  - right. reflexivity.
  - reflexivity.
  - vm_compute. reflexivity.
Defined.

(* ===================================================================== *)
(** * Further properties of the program *)
(* ===================================================================== *)

(** ** When a text is shaped *)

Lemma lstrip_nil_iff (s : pystr) :
  lstrip s = [] <-> forallb isspace s = true.
Proof.
  split; [|apply lstrip_whitespace].
  induction s as [|c r IH]; simpl; [reflexivity|].
  destruct (isspace c); [exact IH | discriminate].
Qed.

Lemma forallb_rev {A : Type} (f : A -> bool) (l : list A) :
  forallb f (rev l) = forallb f l.
Proof.
  induction l as [|x l IH]; [reflexivity|].
  simpl. rewrite forallb_app, IH. simpl.
  rewrite andb_true_r. apply andb_comm.
Qed.

Lemma lstrip_head (s : pystr) :
  lstrip s = [] \/ exists c r, lstrip s = c :: r /\ isspace c = false.
Proof.
  induction s as [|c r IH]; simpl; [left; reflexivity|].
  destruct (isspace c) eqn:Hc; [exact IH|].
  right. exists c, r. split; [reflexivity | exact Hc].
Qed.

Lemma strip_nil_iff (s : pystr) :
  strip s = [] <-> forallb isspace s = true.
Proof.
  split; [|apply strip_whitespace].
  unfold strip, rstrip. intros H.
  apply (f_equal (@rev N)) in H. rewrite rev_involutive in H. simpl in H.
  apply lstrip_nil_iff in H. rewrite forallb_rev in H.
  destruct (lstrip_head s) as [Hnil|(c & r & Hcr & Hc)].
  - apply lstrip_nil_iff, Hnil.
  - rewrite Hcr in H. simpl in H. rewrite Hc in H. discriminate H.
Qed.

(** X1.  [reshape_if_arabic] shapes a text (reshaping, then reordering)
    exactly when the language is "ar" and the text has a character that is
    not whitespace; in every other case it returns the text itself. *)
Theorem reshape_if_arabic_cases (reshape get_display : pystr -> pystr)
    (text : pystr) (lang : string) :
  reshape_if_arabic reshape get_display text lang
  = if (lang =? "ar")%string && existsb (fun c => negb (isspace c)) text
    then get_display (reshape text)
    else text.
Proof.
  unfold reshape_if_arabic.
  destruct (lang =? "ar")%string; simpl; [|reflexivity].
  destruct (existsb (fun c => negb (isspace c)) text) eqn:Hex.
  - destruct (strip text) eqn:Hstrip; simpl; [|reflexivity].
    apply strip_nil_iff in Hstrip.
    apply existsb_exists in Hex as (c & Hin & Hc).
    rewrite forallb_forall in Hstrip. rewrite (Hstrip c Hin) in Hc.
    discriminate Hc.
  - assert (forallb isspace text = true) as Hall.
    { apply forallb_forall. intros c Hin.
      destruct (isspace c) eqn:Hc; [reflexivity|].
      assert (existsb (fun c => negb (isspace c)) text = true) as Hex'
        by (apply existsb_exists; exists c; rewrite Hc; auto).
      rewrite Hex' in Hex. discriminate Hex. }
    rewrite (strip_whitespace text Hall). reflexivity.
Qed.

(** ** Which calls succeed, and what the others raise *)

Lemma outcome_bind {A B : Type} (d : gmap string pystr)
    (ks1 ks2 : list string) (its1 its2 : list item)
    (m : result A) (f : A -> result B) :
  outcome d ks1 its1 m -> (forall a, outcome d ks2 its2 (f a)) ->
  outcome d (ks1 ++ ks2) (its1 ++ its2) (m ≫= f).
Proof.
  intros Hm Hf. destruct m as [a|[k|]]; simpl in *.
  - specialize (Hf a). destruct Hm as [Hk1 Hi1].
    destruct (f a) as [b|[k|]]; simpl in *.
    + destruct Hf as [Hk2 Hi2]. split; apply Forall_app; auto.
    + destruct Hf as [Hin Hnone]. split; [|exact Hnone].
      apply in_or_app. right. exact Hin.
    + apply Exists_app. right. exact Hf.
  - destruct Hm as [Hin Hnone]. split; [|exact Hnone].
    apply in_or_app. left. exact Hin.
  - apply Exists_app. left. exact Hm.
Qed.

Lemma outcome_mret {A : Type} (d : gmap string pystr) (a : A) :
  outcome d [] [] (mret a : result A).
Proof. split; constructor. Qed.

Lemma outcome_eq {A : Type} (d : gmap string pystr) (ks ks' : list string)
    (its its' : list item) (r : result A) :
  outcome d ks its r -> ks = ks' -> its = its' -> outcome d ks' its' r.
Proof. intros H <- <-. exact H. Qed.

Lemma float_of_int_Raise (z : Z) (e : exn) :
  float_of_int z = Raise e -> e = OverflowError.
Proof.
  unfold float_of_int.
  destruct (binary_normalize prec emax z 0 false); intros H;
    try discriminate H; injection H as <-; reflexivity.
Qed.

Lemma outcome_computeLine (d : gmap string pystr) (it : item) :
  outcome d [] [it] (computeLine it).
Proof.
  unfold computeLine.
  destruct (float_of_int (quantity it)) as [q|e] eqn:Hq; simpl.
  - split; [constructor|]. constructor; [exists q; exact Hq | constructor].
  - pose proof (float_of_int_Raise _ _ Hq) as ->. left. exact Hq.
Qed.

Lemma outcome_mapM_computeLine (d : gmap string pystr) (items : list item) :
  outcome d [] items (mapM computeLine items).
Proof.
  induction items as [|it rest IH].
  - apply outcome_mret.
  - change (mapM computeLine (it :: rest))
      with (y ← computeLine it; k ← mapM computeLine rest; mret (y :: k)).
    eapply outcome_eq.
    + eapply outcome_bind; [apply outcome_computeLine|]. intros l.
      eapply outcome_bind; [apply IH|]. intros k. apply outcome_mret.
    + reflexivity.
    + simpl. rewrite app_nil_r. reflexivity.
Qed.

Section Outcomes.

Variable reshape : pystr -> pystr.
Variable get_display : pystr -> pystr.
Variable str_float : float -> pystr.

Lemma outcome_label (d : gmap string pystr) (lang k : string) :
  outcome d [k] [] (label reshape get_display d lang k).
Proof.
  unfold label, getitem. destruct (d !! k) as [v|] eqn:Hk; simpl.
  - split; [|constructor]. constructor; [exists v; exact Hk | constructor].
  - split; [left; reflexivity | exact Hk].
Qed.

Lemma outcome_for_item_in (d : gmap string pystr) (lang : string)
    (items : list item) (st : loop_state) :
  outcome d [] items (for_item_in reshape get_display str_float lang items st).
Proof.
  rewrite for_item_in_computeLine.
  eapply outcome_eq.
  - eapply outcome_bind; [apply outcome_mapM_computeLine|].
    intros lines. apply outcome_mret.
  - reflexivity.
  - apply app_nil_r.
Qed.

Ltac outcome_steps :=
  repeat first
    [ apply outcome_mret
    | apply outcome_label
    | apply outcome_for_item_in
    | eapply outcome_bind; [|intros ?; cbv zeta] ].

Lemma outcome_header_block (now : datetime) (data : invoice_data)
    (d : gmap string pystr) (pc : pystr) (lang : string) :
  outcome d ["number"; "date"; "due_date"]%string []
    (header_block reshape get_display now data d pc lang).
Proof.
  unfold header_block.
  eapply outcome_eq; [outcome_steps | reflexivity | reflexivity].
Qed.

Lemma outcome_parties_block (data : invoice_data) (d : gmap string pystr)
    (pc : pystr) (lang : string) :
  outcome d ["from"; "to"; "tax_id"; "mobile"; "email"; "details"]%string []
    (parties_block reshape get_display data d pc lang).
Proof.
  unfold parties_block.
  eapply outcome_eq; [outcome_steps | reflexivity | reflexivity].
Qed.

Lemma outcome_items_block (items : list item) (d : gmap string pystr)
    (pc : pystr) (lang : string) :
  outcome d ["description"; "quantity"; "unit_price"; "vat_rate";
             "vat_amount"; "total"; "subtotal"; "total_vat"; "total"]%string
    items (items_block reshape get_display str_float items d pc lang).
Proof.
  unfold items_block.
  eapply outcome_eq; [outcome_steps | reflexivity |].
  simpl. apply app_nil_r.
Qed.

Lemma outcome_payment_terms_block (data : invoice_data)
    (d : gmap string pystr) (pc : pystr) (lang : string) :
  outcome d (if truthy (payment_terms data) then ["payment_terms"%string]
             else []) []
    (payment_terms_block reshape get_display data d pc lang).
Proof.
  unfold payment_terms_block. destruct (truthy (payment_terms data)).
  - eapply outcome_eq; [outcome_steps | reflexivity | reflexivity].
  - apply outcome_mret.
Qed.

Lemma outcome_delivery_terms_block (data : invoice_data)
    (d : gmap string pystr) (pc : pystr) (lang : string) :
  outcome d (if truthy (delivery_terms data) then ["delivery_terms"%string]
             else []) []
    (delivery_terms_block reshape get_display data d pc lang).
Proof.
  unfold delivery_terms_block. destruct (truthy (delivery_terms data)).
  - eapply outcome_eq; [outcome_steps | reflexivity | reflexivity].
  - apply outcome_mret.
Qed.

Lemma outcome_accept_checks_block (data : invoice_data)
    (d : gmap string pystr) (lang : string) :
  outcome d (if accept_checks data then ["accept_checks"%string] else []) []
    (accept_checks_block reshape get_display data d lang).
Proof.
  unfold accept_checks_block. destruct (accept_checks data).
  - eapply outcome_eq; [outcome_steps | reflexivity | reflexivity].
  - apply outcome_mret.
Qed.

Lemma outcome_create (now : datetime) (data : invoice_data)
    (items : list item) (d : gmap string pystr) (pc : pystr) (lang : string) :
  outcome d (required_keys data) items
    (create_modern_invoice_pdf reshape get_display str_float now data items
       d pc lang).
Proof.
  unfold create_modern_invoice_pdf.
  eapply outcome_eq.
  - eapply outcome_bind; [apply outcome_header_block|]. intros header.
    eapply outcome_bind; [apply outcome_parties_block|]. intros parties.
    eapply outcome_bind; [apply outcome_items_block|]. intros table.
    eapply outcome_bind; [apply outcome_payment_terms_block|]. intros payment.
    eapply outcome_bind; [apply outcome_delivery_terms_block|].
    intros delivery.
    eapply outcome_bind; [apply outcome_accept_checks_block|]. intros checks.
    apply outcome_mret.
  - unfold required_keys. simpl. rewrite app_nil_r. reflexivity.
  - simpl. rewrite !app_nil_r. reflexivity.
Qed.

End Outcomes.

(** X2.  What composing a document raises: a [KeyError] only for a key that
    the record needs and that the dictionary lacks, an [OverflowError] only
    when the quantity of some item does not convert to a float; and when it
    returns a story, the dictionary has every key that the record needs and
    every quantity converts. *)
Theorem create_modern_invoice_pdf_errors
    (reshape get_display : pystr -> pystr) (str_float : float -> pystr)
    (now : datetime) (data : invoice_data) (items : list item)
    (d : gmap string pystr) (pc : pystr) (lang : string) :
  match create_modern_invoice_pdf reshape get_display str_float now data
          items d pc lang with
  | Ok _ =>
    Forall (fun k => exists v, d !! k = Some v) (required_keys data)
    /\ Forall (fun it => exists q, float_of_int (quantity it) = Ok q) items
  | Raise (KeyError k) => In k (required_keys data) /\ d !! k = None
  | Raise OverflowError =>
    Exists (fun it => float_of_int (quantity it) = Raise OverflowError) items
  end.
Proof. apply outcome_create. Qed.

(** A dictionary that has the keys that the record needs raises no
    [KeyError]. *)
Lemma create_no_KeyError
    (reshape get_display : pystr -> pystr) (str_float : float -> pystr)
    (now : datetime) (data : invoice_data) (items : list item)
    (d : gmap string pystr) (pc : pystr) (lang k : string) :
  Forall (fun k => exists v, d !! k = Some v) (required_keys data) ->
  create_modern_invoice_pdf reshape get_display str_float now data items d
    pc lang <> Raise (KeyError k).
Proof.
  intros Hkeys H.
  pose proof (outcome_create reshape get_display str_float now data items
                d pc lang) as Ho.
  rewrite H in Ho. simpl in Ho. destruct Ho as [Hin Hnone].
  rewrite Forall_forall in Hkeys.
  destruct (Hkeys k) as [v Hv]; [apply list_elem_of_In; exact Hin|].
  rewrite Hv in Hnone. discriminate Hnone.
Qed.

(** ** The three languages of the program *)

Lemma required_keys_among (P : string -> Prop) (data : invoice_data) :
  Forall P (["number"; "date"; "due_date"; "from"; "to"; "tax_id"; "mobile";
             "email"; "details"; "description"; "quantity"; "unit_price";
             "vat_rate"; "vat_amount"; "total"; "subtotal"; "total_vat";
             "total"]%string
            ++ ["payment_terms"; "delivery_terms"; "accept_checks"]%string) ->
  Forall P (required_keys data).
Proof.
  intros H. apply Forall_app in H as [Hfixed Hopt].
  inversion Hopt as [|? ? Hp Hopt1]; subst.
  inversion Hopt1 as [|? ? Hd Hopt2]; subst.
  inversion Hopt2 as [|? ? Ha _]; subst.
  unfold required_keys. apply Forall_app. split; [exact Hfixed|].
  destruct (truthy (payment_terms data)), (truthy (delivery_terms data)),
    (accept_checks data); simpl; repeat constructor; assumption.
Qed.

Lemma supported_required_keys :
  Forall (fun lang =>
            exists d, LANGUAGES !! lang = Some d
                      /\ forall data : invoice_data,
                           Forall (fun k => exists v, d !! k = Some v)
                                  (required_keys data))
         supported_languages.
Proof.
  repeat constructor; eexists; (split; [reflexivity|]); intros data;
    apply required_keys_among; repeat constructor; eexists; reflexivity.
Qed.

(** X4.  With the dictionary of any of the three languages, composing a
    document never raises a [KeyError], whatever the record, the items, the
    colour, the clock reading and the shaping: no label that the composer
    looks up is missing from a dictionary of the program. *)
Theorem supported_languages_no_KeyError :
  Forall (fun lang =>
            exists d,
              LANGUAGES !! lang = Some d
              /\ forall (reshape get_display : pystr -> pystr)
                        (str_float : float -> pystr) (now : datetime)
                        (data : invoice_data) (items : list item)
                        (pc : pystr) (k : string),
                   create_modern_invoice_pdf reshape get_display str_float
                     now data items d pc lang <> Raise (KeyError k))
         supported_languages.
Proof.
  eapply Forall_impl; [apply supported_required_keys|].
  intros lang (d & Hd & Hkeys); simpl.
  exists d. split; [exact Hd|].
  intros reshape get_display str_float now data items pc k.
  apply create_no_KeyError, Hkeys.
Qed.

(** ** Shaping outside Arabic *)

(** X5.  For a language other than "ar" the composed story does not depend
    on the shaping libraries: whatever [reshape] and [get_display] compute,
    the result is the same, errors included. *)
Theorem non_arabic_story_unshaped
    (reshape1 get_display1 reshape2 get_display2 : pystr -> pystr)
    (str_float : float -> pystr) (now : datetime) (data : invoice_data)
    (items : list item) (d : gmap string pystr) (pc : pystr) (lang : string) :
  lang <> "ar"%string ->
  create_modern_invoice_pdf reshape1 get_display1 str_float now data items d
    pc lang
  = create_modern_invoice_pdf reshape2 get_display2 str_float now data items
      d pc lang.
Proof.
  intros Hlang. apply String.eqb_neq in Hlang.
  unfold create_modern_invoice_pdf.
  rewrite !items_block_computeTotals.
  unfold header_block, parties_block, payment_terms_block,
    delivery_terms_block, accept_checks_block, accept_checks_text,
    items_header_row, totals_labels, header_html, supplier_html,
    customer_html, label, line_row, reshape_if_arabic.
  revert Hlang. generalize (lang =? "ar")%string. intros b ->.
  reflexivity.
Qed.

Lemma non_arabic_story_unshaped_witness :
  "fr"%string <> "ar"%string
  /\ create_modern_invoice_pdf sample_reshape sample_get_display
       sample_str_float (sample_now 10 30 0) sample_data [sample_item]
       en_dict (u "#1a237e") "fr"
     = create_modern_invoice_pdf (fun s => s ++ s) (fun s => [])
         sample_str_float (sample_now 10 30 0) sample_data [sample_item]
         en_dict (u "#1a237e") "fr".
Proof.
  split; [discriminate|].
  apply (non_arabic_story_unshaped sample_reshape sample_get_display
           (fun s => s ++ s) (fun s => []) sample_str_float
           (sample_now 10 30 0) sample_data [sample_item] en_dict
           (u "#1a237e") "fr"%string).
  discriminate.
Defined.

(** ** The shape and the fonts of a composed story *)

Lemma story_fonts_app (s1 s2 : list flowable) :
  story_fonts (s1 ++ s2) = story_fonts s1 ++ story_fonts s2.
Proof. unfold story_fonts. rewrite map_app, concat_app. reflexivity. Qed.

Lemma rows_without_fonts (rows : list (list cell)) :
  Forall (Forall (fun c => cell_fonts c = [])) rows ->
  concat (map (fun row => concat (map cell_fonts row)) rows) = [].
Proof.
  induction 1 as [|row rows Hrow _ IH]; [reflexivity|].
  simpl. rewrite IH, app_nil_r.
  induction Hrow as [|c row Hc _ IHrow]; [reflexivity|].
  simpl. rewrite Hc, IHrow. reflexivity.
Qed.

Lemma CStr_without_fonts (l : list pystr) :
  Forall (fun c => cell_fonts c = []) (map CStr l).
Proof. induction l; simpl; constructor; auto. Qed.

Lemma table_fonts (rows : list (list cell)) (cw : option (list float))
    (rr : nat) (style : list style_cmd) :
  Forall (Forall (fun c => cell_fonts c = [])) rows ->
  story_fonts [Table rows cw rr style] = concat (map cmd_fonts style).
Proof.
  intros H. unfold story_fonts.
  change (concat (map flowable_fonts [Table rows cw rr style]))
    with ((concat (map (fun row => concat (map cell_fonts row)) rows)
           ++ concat (map cmd_fonts style)) ++ []).
  rewrite (rows_without_fonts rows H), app_nil_r. reflexivity.
Qed.

Section Shape.

Variable reshape : pystr -> pystr.
Variable get_display : pystr -> pystr.
Variable str_float : float -> pystr.

Lemma line_rows_without_fonts (lang : string) (items : list item) :
  forall lines : list (float * float * float),
    Forall (Forall (fun c => cell_fonts c = []))
           (zip_with (line_row reshape get_display str_float lang)
                     items lines).
Proof.
  induction items as [|it rest IH]; intros [|l lines]; simpl;
    constructor; [repeat constructor | apply IH].
Qed.

Lemma header_block_shape (now : datetime) (data : invoice_data)
    (d : gmap string pystr) (pc : pystr) (lang : string)
    (fl : list flowable) :
  header_block reshape get_display now data d pc lang = Ok fl ->
  map kind_of fl = [KTable; KSpacer 20]
  /\ Forall (fun f => f = font_name lang) (story_fonts fl).
Proof.
  unfold header_block. intros H.
  inv_bind H. inv_bind H. inv_bind H. injection H as <-.
  split; [reflexivity|].
  destruct (logo data); repeat constructor.
Qed.

Lemma parties_block_shape (data : invoice_data) (d : gmap string pystr)
    (pc : pystr) (lang : string) (fl : list flowable) :
  parties_block reshape get_display data d pc lang = Ok fl ->
  map kind_of fl = [KTable; KSpacer 20; KParagraph "SubHeading"]
  /\ Forall (fun f => f = font_name lang) (story_fonts fl).
Proof.
  unfold parties_block. intros H.
  do 6 inv_bind H. injection H as <-.
  split; [reflexivity | repeat constructor].
Qed.

Lemma items_block_shape (items : list item) (d : gmap string pystr)
    (pc : pystr) (lang : string) (fl : list flowable) :
  items_block reshape get_display str_float items d pc lang = Ok fl ->
  map kind_of fl = [KTable]
  /\ Forall (fun f => f = font_name lang) (story_fonts fl).
Proof.
  rewrite items_block_computeTotals. intros H.
  apply bind_Ok in H as (hdr & Hhdr & H).
  apply bind_Ok in H as (lines & _ & H).
  apply bind_Ok in H as (t & _ & H).
  apply bind_Ok in H as (labels & _ & H).
  injection H as <-. split; [reflexivity|].
  unfold items_header_row in Hhdr.
  apply bind_Ok in Hhdr as (l & _ & Hhdr). injection Hhdr as <-.
  rewrite table_fonts.
  - simpl. repeat constructor.
  - constructor; [apply CStr_without_fonts|].
    apply Forall_app. split; [apply line_rows_without_fonts|].
    unfold totals_block.
    induction (zip labels [line_subtotal t; line_vat t; line_total t]);
      simpl; constructor; [repeat constructor | assumption].
Qed.

Lemma payment_terms_block_shape (data : invoice_data)
    (d : gmap string pystr) (pc : pystr) (lang : string)
    (fl : list flowable) :
  payment_terms_block reshape get_display data d pc lang = Ok fl ->
  map kind_of fl
  = (if truthy (payment_terms data)
     then [KSpacer 20; KParagraph "SubHeading"; KParagraph "NormalArabic"]
     else [])
  /\ Forall (fun f => f = font_name lang) (story_fonts fl).
Proof.
  unfold payment_terms_block. intros H.
  destruct (truthy (payment_terms data)).
  - inv_bind H. injection H as <-. split; [reflexivity | repeat constructor].
  - injection H as <-. split; [reflexivity | constructor].
Qed.

Lemma delivery_terms_block_shape (data : invoice_data)
    (d : gmap string pystr) (pc : pystr) (lang : string)
    (fl : list flowable) :
  delivery_terms_block reshape get_display data d pc lang = Ok fl ->
  map kind_of fl
  = (if truthy (delivery_terms data)
     then [KSpacer 10; KParagraph "SubHeading"; KParagraph "NormalArabic"]
     else [])
  /\ Forall (fun f => f = font_name lang) (story_fonts fl).
Proof.
  unfold delivery_terms_block. intros H.
  destruct (truthy (delivery_terms data)).
  - inv_bind H. injection H as <-. split; [reflexivity | repeat constructor].
  - injection H as <-. split; [reflexivity | constructor].
Qed.

Lemma accept_checks_block_shape (data : invoice_data)
    (d : gmap string pystr) (lang : string) (fl : list flowable) :
  accept_checks_block reshape get_display data d lang = Ok fl ->
  map kind_of fl
  = (if accept_checks data then [KSpacer 10; KParagraph "NormalArabic"]
     else [])
  /\ Forall (fun f => f = font_name lang) (story_fonts fl).
Proof.
  unfold accept_checks_block. intros H.
  destruct (accept_checks data).
  - inv_bind H. injection H as <-. split; [reflexivity | repeat constructor].
  - injection H as <-. split; [reflexivity | constructor].
Qed.

(** A composed story, block by block. *)
Lemma create_shape (now : datetime) (data : invoice_data)
    (items : list item) (d : gmap string pystr) (pc : pystr) (lang : string)
    (story : list flowable) :
  create_modern_invoice_pdf reshape get_display str_float now data items d
    pc lang = Ok story ->
  map kind_of story
  = [KTable; KSpacer 20; KTable; KSpacer 20; KParagraph "SubHeading"; KTable]
    ++ (if truthy (payment_terms data)
        then [KSpacer 20; KParagraph "SubHeading"; KParagraph "NormalArabic"]
        else [])
    ++ (if truthy (delivery_terms data)
        then [KSpacer 10; KParagraph "SubHeading"; KParagraph "NormalArabic"]
        else [])
    ++ (if accept_checks data
        then [KSpacer 10; KParagraph "NormalArabic"] else [])
  /\ Forall (fun f => f = font_name lang) (story_fonts story).
Proof.
  unfold create_modern_invoice_pdf. intros H.
  apply bind_Ok in H as (header & Hheader & H).
  apply bind_Ok in H as (parties & Hparties & H).
  apply bind_Ok in H as (table & Htable & H).
  apply bind_Ok in H as (payment & Hpayment & H).
  apply bind_Ok in H as (delivery & Hdelivery & H).
  apply bind_Ok in H as (checks & Hchecks & H).
  injection H as <-.
  apply header_block_shape in Hheader as [Kh Fh].
  apply parties_block_shape in Hparties as [Kp Fp].
  apply items_block_shape in Htable as [Kt Ft].
  apply payment_terms_block_shape in Hpayment as [Kpt Fpt].
  apply delivery_terms_block_shape in Hdelivery as [Kd Fd].
  apply accept_checks_block_shape in Hchecks as [Kc Fc].
  split.
  - rewrite !map_app, Kh, Kp, Kt, Kpt, Kd, Kc. reflexivity.
  - rewrite !story_fonts_app, !Forall_app. auto 10.
Qed.

End Shape.



(** X7.  Every font that a composed story names, in the styles of its
    paragraphs (those inside the tables too) and in the FONTNAME commands of
    its tables, is the one font of the language: "Amiri" for "ar",
    "Helvetica" for any other language. *)
Theorem story_font_uniform
    (reshape get_display : pystr -> pystr) (str_float : float -> pystr)
    (now : datetime) (data : invoice_data) (items : list item)
    (d : gmap string pystr) (pc : pystr) (lang : string)
    (story : list flowable) :
  create_modern_invoice_pdf reshape get_display str_float now data items d
    pc lang = Ok story ->
  Forall (fun f => f = if (lang =? "ar")%string then "Amiri"%string
                       else "Helvetica"%string)
         (story_fonts story).
Proof. intros H. apply (create_shape _ _ _ _ _ _ _ _ _ _ H). Qed.

Lemma story_font_uniform_witness :
  exists story,
    create_modern_invoice_pdf sample_reshape sample_get_display
      sample_str_float (sample_now 10 30 0) sample_data [sample_item]
      ar_dict (u "#1a237e") "ar" = Ok story
    /\ story_fonts story
       = ["Amiri"; "Amiri"; "Amiri"; "Amiri"; "Amiri"; "Amiri"; "Amiri";
          "Amiri"]%string
    /\ Forall (fun f => f = if ("ar" =? "ar")%string then "Amiri"%string
                            else "Helvetica"%string)
              (story_fonts story).
Proof.
  eexists. split; [vm_compute; reflexivity|].
  split; [vm_compute; reflexivity|].
  apply (story_font_uniform sample_reshape sample_get_display
           sample_str_float (sample_now 10 30 0) sample_data [sample_item]
           ar_dict (u "#1a237e") "ar"%string).
  vm_compute. reflexivity.
Defined.

(** ** The data URL of the preview *)

Lemma list_ind3 {A : Type} (P : list A -> Prop) :
  P [] -> (forall a, P [a]) -> (forall a b, P [a; b]) ->
  (forall a b c rest, P rest -> P (a :: b :: c :: rest)) ->
  forall l, P l.
Proof.
  intros H0 H1 H2 H3 l.
  assert (forall n (k : list A), (length k <= n)%nat -> P k) as Hn.
  { induction n as [|n IH]; intros k Hk.
    - destruct k; [exact H0 | simpl in Hk; lia].
    - destruct k as [|a [|b [|c rest]]]; auto.
      apply H3, IH. simpl in Hk. lia. }
  apply (Hn (length l)). lia.
Qed.

Lemma b64_alphabet_spec (c : N) :
  b64_alphabet c = true
  <-> (65 <= c <= 90 \/ 97 <= c <= 122 \/ 48 <= c <= 57 \/ c = 43 \/ c = 47)%N.
Proof.
  unfold b64_alphabet.
  rewrite !orb_true_iff, !andb_true_iff, !N.leb_le, !N.eqb_eq. tauto.
Qed.

Lemma b64_char_alphabet (i : N) : b64_alphabet (b64_char i) = true.
Proof.
  apply b64_alphabet_spec. unfold b64_char.
  destruct (N.ltb_spec i 26); [lia|].
  destruct (N.ltb_spec i 52); [lia|].
  destruct (N.ltb_spec i 62); [lia|].
  destruct (N.eqb_spec i 62); lia.
Qed.

Lemma b64_char_not_pad (i : N) : (b64_char i =? 61)%N = false.
Proof.
  apply N.eqb_neq. intros H.
  pose proof (b64_char_alphabet i) as Ha. rewrite H in Ha. discriminate Ha.
Qed.

Lemma b64_index_char (i : N) : (i < 64)%N -> b64_index (b64_char i) = i.
Proof.
  intros Hi. unfold b64_char.
  destruct (N.ltb_spec i 26).
  { unfold b64_index.
    replace ((65 <=? 65 + i) && (65 + i <=? 90))%N with true; [lia|].
    symmetry. apply andb_true_iff. rewrite !N.leb_le. lia. }
  destruct (N.ltb_spec i 52).
  { unfold b64_index.
    replace ((65 <=? 97 + (i - 26)) && (97 + (i - 26) <=? 90))%N with false.
    - replace ((97 <=? 97 + (i - 26)) && (97 + (i - 26) <=? 122))%N
        with true; [lia|].
      symmetry. apply andb_true_iff. rewrite !N.leb_le. lia.
    - symmetry. apply andb_false_iff. right. apply N.leb_gt. lia. }
  destruct (N.ltb_spec i 62).
  { unfold b64_index.
    replace ((65 <=? 48 + (i - 52)) && (48 + (i - 52) <=? 90))%N with false.
    - replace ((97 <=? 48 + (i - 52)) && (48 + (i - 52) <=? 122))%N
        with false.
      + replace ((48 <=? 48 + (i - 52)) && (48 + (i - 52) <=? 57))%N
          with true; [lia|].
        symmetry. apply andb_true_iff. rewrite !N.leb_le. lia.
      + symmetry. apply andb_false_iff. left. apply N.leb_gt. lia.
    - symmetry. apply andb_false_iff. left. apply N.leb_gt. lia. }
  destruct (N.eqb_spec i 62) as [->|Hne]; [reflexivity|].
  assert (i = 63%N) as -> by lia. reflexivity.
Qed.

Lemma b64encode_alphabet (bs : list N) :
  Forall (fun c => b64_alphabet c = true \/ c = 61%N) (b64encode bs).
Proof.
  induction bs as [|a|a b|a b c rest IH] using list_ind3.
  - constructor.
  - repeat (constructor;
            [first [left; apply b64_char_alphabet | right; reflexivity]|]).
    constructor.
  - repeat (constructor;
            [first [left; apply b64_char_alphabet | right; reflexivity]|]).
    constructor.
  - change (b64encode (a :: b :: c :: rest))
      with ([b64_char (a / 4); b64_char (a mod 4 * 16 + b / 16);
             b64_char (b mod 16 * 4 + c / 64); b64_char (c mod 64)]%N
            ++ b64encode rest).
    apply Forall_app. split; [|exact IH].
    repeat (constructor; [left; apply b64_char_alphabet|]).
    constructor.
Qed.

Lemma b64encode_length (bs : list N) :
  length (b64encode bs) = (4 * ((length bs + 2) / 3))%nat.
Proof.
  induction bs as [|a|a b|a b c rest IH] using list_ind3;
    try reflexivity.
  change (b64encode (a :: b :: c :: rest))
    with ([b64_char (a / 4); b64_char (a mod 4 * 16 + b / 16);
           b64_char (b mod 16 * 4 + c / 64); b64_char (c mod 64)]%N
          ++ b64encode rest).
  rewrite length_app, IH.
  change (length (a :: b :: c :: rest)) with (3 + length rest)%nat.
  change (length [b64_char (a / 4); b64_char (a mod 4 * 16 + b / 16);
                  b64_char (b mod 16 * 4 + c / 64); b64_char (c mod 64)]%N)
    with 4%nat.
  replace (3 + length rest + 2)%nat with (length rest + 2 + 1 * 3)%nat by lia.
  rewrite Nat.div_add by lia. lia.
Qed.

Lemma utf8_decode_ascii (l : list N) :
  Forall (fun c => (c < 128)%N) l -> utf8_decode l = l.
Proof.
  induction 1 as [|c l Hc _ IH]; [reflexivity|].
  simpl. apply N.ltb_lt in Hc. rewrite Hc, IH. reflexivity.
Qed.

Lemma b64encode_ascii (bs : list N) :
  Forall (fun c => (c < 128)%N) (b64encode bs).
Proof.
  eapply Forall_impl; [apply b64encode_alphabet|].
  intros c [Hc| ->]; [|lia]. apply b64_alphabet_spec in Hc. lia.
Qed.

(** X8.  The markup of the preview is the fixed opening of the iframe, the
    base64 text of the PDF and the fixed closing.  The base64 text has four
    characters for every three bytes, rounded up, and is made of letters,
    digits, "+", "/" and "=" only: no byte of the PDF can put a quote or an
    angle bracket into the tag. *)
Theorem get_pdf_iframe_markup (pdf_bytes : list N) :
  get_pdf_iframe pdf_bytes
  = u "<iframe src=" ++ dq ++ u "data:application/pdf;base64,"
      ++ b64encode pdf_bytes
      ++ dq ++ u " width=" ++ dq ++ u "700" ++ dq
      ++ u " height=" ++ dq ++ u "1000" ++ dq
      ++ u " type=" ++ dq ++ u "application/pdf" ++ dq ++ u "></iframe>"
  /\ length (b64encode pdf_bytes) = (4 * ((length pdf_bytes + 2) / 3))%nat
  /\ Forall (fun c => b64_alphabet c = true \/ c = 61%N)
            (b64encode pdf_bytes)
  /\ Forall (fun c => c <> 34%N /\ c <> 60%N /\ c <> 62%N /\ c <> 32%N)
            (b64encode pdf_bytes).
Proof.
  split; [|split; [|split]].
  - unfold get_pdf_iframe.
    rewrite (utf8_decode_ascii _ (b64encode_ascii pdf_bytes)). reflexivity.
  - apply b64encode_length.
  - apply b64encode_alphabet.
  - eapply Forall_impl; [apply b64encode_alphabet|].
    intros c [Hc| ->]; [|lia]. apply b64_alphabet_spec in Hc. lia.
Qed.

Ltac n_arith := zify; Z.to_euclidean_division_equations; lia.

(** X9.  The base64 text of the preview decodes to the bytes of the PDF:
    the data URL carries the document without loss. *)
Theorem b64_round_trip (pdf_bytes : list N) :
  Forall (fun b => (b < 256)%N) pdf_bytes ->
  b64decode (b64encode pdf_bytes) = pdf_bytes.
Proof.
  induction pdf_bytes as [|a|a b|a b c rest IH] using list_ind3; intros H.
  - reflexivity.
  - inversion H as [|? ? Ha _]; subst. clear H.
    cbn [b64encode b64decode]. cbn [N.eqb Pos.eqb].
    rewrite (b64_index_char (a / 4)), (b64_index_char (a mod 4 * 16))
      by n_arith.
    f_equal. n_arith.
  - inversion H as [|? ? Ha H1]; subst. inversion H1 as [|? ? Hb _]; subst.
    clear H H1.
    cbn [b64encode b64decode].
    rewrite b64_char_not_pad. cbn [N.eqb Pos.eqb].
    rewrite (b64_index_char (a / 4)),
      (b64_index_char (a mod 4 * 16 + b / 16)),
      (b64_index_char (b mod 16 * 4)) by n_arith.
    f_equal; [|f_equal]; n_arith.
  - inversion H as [|? ? Ha H1]; subst. inversion H1 as [|? ? Hb H2]; subst.
    inversion H2 as [|? ? Hc H3]; subst.
    specialize (IH H3). clear H H1 H2 H3.
    change (b64encode (a :: b :: c :: rest))
      with (b64_char (a / 4) :: b64_char (a mod 4 * 16 + b / 16)
            :: b64_char (b mod 16 * 4 + c / 64) :: b64_char (c mod 64)
            :: b64encode rest)%N.
    cbn [b64decode]. rewrite !b64_char_not_pad.
    rewrite (b64_index_char (a / 4)),
      (b64_index_char (a mod 4 * 16 + b / 16)),
      (b64_index_char (b mod 16 * 4 + c / 64)),
      (b64_index_char (c mod 64)) by n_arith.
    rewrite IH. cbn [app].
    f_equal; [|f_equal; [|f_equal]]; n_arith.
Qed.

Lemma b64_round_trip_witness :
  Forall (fun b => (b < 256)%N) [37; 80; 68; 70; 45; 255; 0]%N
  /\ b64encode [37; 80; 68; 70; 45; 255; 0]%N = u "JVBERi3/AA=="
  /\ b64decode (b64encode [37; 80; 68; 70; 45; 255; 0]%N)
     = [37; 80; 68; 70; 45; 255; 0]%N.
Proof.
  assert (Forall (fun b => (b < 256)%N) [37; 80; 68; 70; 45; 255; 0]%N) as H
    by (repeat constructor).
  split; [exact H|]. split; [vm_compute; reflexivity|].
  exact (b64_round_trip [37; 80; 68; 70; 45; 255; 0]%N H).
Defined.

(** ** The list of items of the page *)

Lemma str_int_inj (z1 z2 : Z) : str_int z1 = str_int z2 -> z1 = z2.
Proof.
  unfold str_int. intros H.
  assert (forall l, map ascii_of_N (map N_of_ascii l) = l) as Hemb.
  { induction l as [|a l IH]; [reflexivity|].
    simpl. rewrite ascii_N_embedding, IH. reflexivity. }
  apply (f_equal (map ascii_of_N)) in H. rewrite !Hemb in H.
  apply (f_equal string_of_list_ascii) in H.
  rewrite !string_of_list_ascii_of_string in H.
  apply (f_equal NilZero.int_of_string) in H.
  assert (forall z, NilZero.int_of_string (NilZero.string_of_int (Z.to_int z))
                    = Some (Z.to_int z)) as Hisi.
  { intros z. apply NilZero.isi; destruct z; simpl; try discriminate;
      intros [= Hp]; apply (DecimalPos.Unsigned.to_uint_nonnil _ Hp). }
  rewrite !Hisi in H.
  apply DecimalZ.to_int_inj. congruence.
Qed.

Lemma remove_key_inj (i j : nat) : remove_key i = remove_key j -> i = j.
Proof.
  unfold remove_key. intros H. apply app_inv_head in H.
  apply str_int_inj in H. lia.
Qed.

Section ItemListLoop.

Variable str_float : float -> pystr.
Variable pressed : pystr -> bool.
Variable d : gmap string pystr.
Variable line : item -> pystr.
Variable l_remove : pystr.

Hypothesis Hline : forall it, item_line str_float d it = Ok (line it).
Hypothesis Hremove : getitem d "remove" = Ok l_remove.

(** The loop, started at the index [idx] of a list [pre ++ suf] with [idx]
    items in [pre], and with enough fuel for the items of [suf], ends with
    what [pass] gives. *)
Lemma items_loop_pass (n : nat) :
  forall (suf pre : list item) (idx fuel : nat) (log : list ui_call),
    (length suf <= n)%nat -> idx = length pre -> (length suf <= fuel)%nat ->
    items_loop str_float pressed d fuel idx (pre ++ suf) log
    = Ok (pre ++ (pass pressed idx suf).1,
          log ++ listing_calls l_remove line idx (pass pressed idx suf).2).
Proof using Hline Hremove.
  induction n as [|n IH]; intros suf pre idx fuel log Hn Hidx Hfuel.
  - destruct suf; [|simpl in Hn; lia].
    destruct fuel; simpl; rewrite ?app_nil_r.
    + reflexivity.
    + rewrite lookup_ge_None_2 by lia. reflexivity.
  - destruct suf as [|it rest].
    { destruct fuel; simpl; rewrite ?app_nil_r.
      + reflexivity.
      + rewrite lookup_ge_None_2 by lia. reflexivity. }
    destruct fuel as [|fuel]; [simpl in Hfuel; lia|].
    simpl in Hn, Hfuel.
    cbn [items_loop].
    rewrite (list_lookup_middle pre rest it idx Hidx).
    rewrite Hline, Hremove. cbn [mbind mret result_bind result_ret].
    cbn [pass].
    destruct (pressed (remove_key idx)).
    + rewrite Hidx at 2. rewrite delete_middle.
      destruct rest as [|next rest'].
      * cbn [fst snd listing_calls]. rewrite !app_nil_r.
        destruct fuel; simpl; [reflexivity|].
        rewrite lookup_ge_None_2 by lia. reflexivity.
      * replace (pre ++ next :: rest') with ((pre ++ [next]) ++ rest')
          by (rewrite <- app_assoc; reflexivity).
        rewrite (IH rest' (pre ++ [next]) (S idx) fuel);
          [| simpl in Hn; lia
           | rewrite length_app; simpl; lia
           | simpl in Hfuel; lia].
        cbn [fst snd listing_calls]. rewrite <- !app_assoc. reflexivity.
    + replace (pre ++ it :: rest) with ((pre ++ [it]) ++ rest)
        by (rewrite <- app_assoc; reflexivity).
      rewrite (IH rest (pre ++ [it]) (S idx) fuel);
        [| lia | rewrite length_app; simpl; lia | lia].
      cbn [fst snd listing_calls]. rewrite <- !app_assoc. reflexivity.
Qed.

End ItemListLoop.

Lemma item_list_labels (str_float : float -> pystr) (d : gmap string pystr) :
  Forall (fun k => exists v, d !! k = Some v) item_list_keys ->
  exists l_services l_remove line,
    d !! "services_products"%string = Some l_services
    /\ getitem d "remove" = Ok l_remove
    /\ forall it, item_line str_float d it = Ok (line it).
Proof.
  intros H.
  inversion H as [|? ? [ls Hs] H1]; subst.
  inversion H1 as [|? ? [ld Hd] H2]; subst.
  inversion H2 as [|? ? [lq Hq] H3]; subst.
  inversion H3 as [|? ? [lp Hp] H4]; subst.
  inversion H4 as [|? ? [lv Hv] H5]; subst.
  inversion H5 as [|? ? [lr Hr] _]; subst.
  exists ls, lr. eexists. split; [exact Hs|]. split.
  - unfold getitem. rewrite Hr. reflexivity.
  - intros it. unfold item_line, getitem. rewrite Hd, Hq, Hp, Hv.
    reflexivity.
Qed.

(** A run of the list of items, in terms of [pass]. *)
Lemma items_section_pass (str_float : float -> pystr)
    (pressed : pystr -> bool) (d : gmap string pystr) (items : list item) :
  Forall (fun k => exists v, d !! k = Some v) item_list_keys ->
  exists l_services l_remove line,
    d !! "services_products"%string = Some l_services
    /\ (forall it, item_line str_float d it = Ok (line it))
    /\ items_section str_float pressed d items
       = Ok ((pass pressed 0 items).1,
             match items with
             | [] => []
             | _ :: _ =>
               st_write (l_services ++ u ":")
                 :: listing_calls l_remove line 0 (pass pressed 0 items).2
             end).
Proof.
  intros Hkeys.
  destruct (item_list_labels str_float d Hkeys)
    as (ls & lr & line & Hs & Hr & Hline).
  exists ls, lr, line. split; [exact Hs|]. split; [exact Hline|].
  unfold items_section. destruct items as [|it rest]; [reflexivity|].
  cbn [length Nat.ltb Nat.leb]. unfold getitem at 1. rewrite Hs.
  cbn [mbind mret result_bind result_ret].
  apply (items_loop_pass str_float pressed d line lr Hline Hr
           (length (it :: rest)) (it :: rest) [] 0 (length (it :: rest)));
    reflexivity || lia.
Qed.


Lemma pass_after (pressed : pystr -> bool) (k : nat) :
  (forall key, pressed key = true <-> key = remove_key k) ->
  forall (suf : list item) (idx : nat),
    (k < idx)%nat -> pass pressed idx suf = (suf, suf).
Proof.
  intros Hk. induction suf as [|it rest IH]; intros idx Hidx; [reflexivity|].
  cbn [pass].
  destruct (pressed (remove_key idx)) eqn:Hp.
  - apply Hk, remove_key_inj in Hp. lia.
  - rewrite IH by lia. reflexivity.
Qed.

Lemma pass_one (pressed : pystr -> bool) (k : nat) :
  (forall key, pressed key = true <-> key = remove_key k) ->
  forall (suf : list item) (idx : nat),
    (idx <= k)%nat -> (k - idx < length suf)%nat ->
    pass pressed idx suf
    = (delete (k - idx)%nat suf,
       take (S (k - idx)) suf ++ drop (S (S (k - idx))) suf).
Proof.
  intros Hk. induction suf as [|it rest IH]; intros idx Hidx Hlen;
    [simpl in Hlen; lia|].
  cbn [pass].
  destruct (pressed (remove_key idx)) eqn:Hp.
  - apply Hk, remove_key_inj in Hp. subst idx.
    replace (k - k)%nat with 0%nat by lia.
    destruct rest as [|next rest']; [reflexivity|].
    rewrite (pass_after pressed k Hk) by lia. reflexivity.
  - assert (idx <> k) as Hne.
    { intros ->. assert (pressed (remove_key k) = true) as Ht
        by (apply Hk; reflexivity).
      rewrite Ht in Hp. discriminate Hp. }
    simpl in Hlen.
    rewrite (IH (S idx)) by lia.
    replace (k - idx)%nat with (S (k - S idx)) by lia.
    reflexivity.
Qed.

Lemma pass_sublist (pressed : pystr -> bool) (n : nat) :
  forall (suf : list item) (idx : nat),
    (length suf <= n)%nat ->
    sublist (pass pressed idx suf).1 suf
    /\ (length (pass pressed idx suf).2 <= length suf)%nat.
Proof.
  induction n as [|n IH]; intros suf idx Hn.
  - destruct suf; [|simpl in Hn; lia]. split; [constructor | reflexivity].
  - destruct suf as [|it rest]; [split; [constructor | reflexivity]|].
    simpl in Hn. cbn [pass].
    destruct (pressed (remove_key idx)).
    + destruct rest as [|next rest'].
      * split; [apply sublist_nil_l | simpl; lia].
      * destruct (IH rest' (S idx)) as [Hs Hl]; [simpl in Hn; lia|].
        split; simpl.
        -- apply sublist_cons. apply sublist_skip. exact Hs.
        -- simpl in Hl. lia.
    + destruct (IH rest (S idx)) as [Hs Hl]; [lia|].
      split; simpl; [apply sublist_skip; exact Hs | lia].
Qed.

Lemma written_app (l1 l2 : list ui_call) :
  written (l1 ++ l2) = written l1 ++ written l2.
Proof. unfold written. rewrite map_app, concat_app. reflexivity. Qed.

Lemma button_keys_app (l1 l2 : list ui_call) :
  button_keys (l1 ++ l2) = button_keys l1 ++ button_keys l2.
Proof. unfold button_keys. rewrite map_app, concat_app. reflexivity. Qed.

Lemma listing_calls_keys (l_remove : pystr) (line : item -> pystr) :
  forall (shown : list item) (idx : nat),
    button_keys (listing_calls l_remove line idx shown)
    = map remove_key (seq idx (length shown)).
Proof.
  induction shown as [|it rest IH]; intros idx; [reflexivity|].
  cbn [listing_calls length seq map].
  rewrite button_keys_app, IH. reflexivity.
Qed.

Lemma listing_calls_written (l_remove : pystr) (line : item -> pystr) :
  forall (shown : list item) (idx : nat),
    written (listing_calls l_remove line idx shown)
    = imap (fun j it => u "- " ++ str_int (Z.of_nat (idx + j) + 1) ++ u ") "
                          ++ line it) shown.
Proof.
  induction shown as [|it rest IH]; intros idx; [reflexivity|].
  cbn [listing_calls]. rewrite written_app, IH, imap_cons.
  rewrite Nat.add_0_r.
  change (written [st_write (u "- " ++ str_int (Z.of_nat idx + 1) ++ u ") "
                             ++ line it);
                   st_button (l_remove ++ u " " ++ str_int (Z.of_nat idx + 1))
                             (remove_key idx)])
    with [u "- " ++ str_int (Z.of_nat idx + 1) ++ u ") " ++ line it].
  cbn [app]. f_equal.
  apply imap_ext. intros j x _. unfold compose.
  replace (S idx + j)%nat with (idx + S j)%nat by lia. reflexivity.
Qed.

Lemma remove_keys_NoDup (idx n : nat) : NoDup (map remove_key (seq idx n)).
Proof.
  apply NoDup_fmap_2.
  - intros i j. apply remove_key_inj.
  - apply NoDup_seq.
Qed.



(** X11.  A run in which the remove button of the item at index [k] is the
    one pressed ends with the list without that item, the others in their
    order; and the lines that this run puts on the page are those of the items
    up to [k] and of the items from [k + 2] on, numbered without a gap: the
    item that followed the removed one is not listed in this run, because the
    loop goes on through the list that [pop] has just shortened. *)
Theorem items_listing_remove (str_float : float -> pystr)
    (pressed : pystr -> bool) (d : gmap string pystr) (items : list item)
    (k : nat) :
  Forall (fun k => exists v, d !! k = Some v) item_list_keys ->
  (forall key, pressed key = true <-> key = remove_key k) ->
  (k < length items)%nat ->
  exists l_services line log,
    d !! "services_products"%string = Some l_services
    /\ (forall it, item_line str_float d it = Ok (line it))
    /\ items_section str_float pressed d items = Ok (delete k items, log)
    /\ written log
       = (l_services ++ u ":")
           :: imap (fun j it => u "- " ++ str_int (Z.of_nat j + 1)
                                  ++ u ") " ++ line it)
                   (take (S k) items ++ drop (S (S k)) items)
    /\ button_keys log
       = map remove_key
           (seq 0 (length (take (S k) items ++ drop (S (S k)) items))).
Proof.
  intros Hkeys Hk Hlen.
  destruct (items_section_pass str_float pressed d items Hkeys)
    as (ls & lr & line & Hs & Hline & Hrun).
  rewrite (pass_one pressed k Hk items 0) in Hrun by lia.
  replace (k - 0)%nat with k in Hrun by lia. cbn [fst snd] in Hrun.
  exists ls, line. eexists. split; [exact Hs|]. split; [exact Hline|].
  split; [exact Hrun|].
  destruct items as [|it rest]; [simpl in Hlen; lia|].
  change (st_write (ls ++ u ":")
            :: listing_calls lr line 0
                 (take (S k) (it :: rest) ++ drop (S (S k)) (it :: rest)))
    with ([st_write (ls ++ u ":")]
            ++ listing_calls lr line 0
                 (take (S k) (it :: rest) ++ drop (S (S k)) (it :: rest))).
  split.
  - rewrite written_app, listing_calls_written. reflexivity.
  - rewrite button_keys_app, listing_calls_keys. reflexivity.
Qed.

Lemma items_listing_remove_witness :
  Forall (fun k => exists v, en_dict !! k = Some v) item_list_keys
  /\ (forall key : pystr,
         bool_decide (key = remove_key 0) = true <-> key = remove_key 0)
  /\ (0 < length [sample_item; negative_item; small_item])%nat
  /\ exists l_services line log,
       en_dict !! "services_products"%string = Some l_services
       /\ (forall it, item_line sample_str_float en_dict it = Ok (line it))
       /\ items_section sample_str_float
            (fun key => bool_decide (key = remove_key 0)) en_dict
            [sample_item; negative_item; small_item]
          = Ok (delete 0%nat [sample_item; negative_item; small_item], log)
       /\ written log
          = (l_services ++ u ":")
              :: imap (fun j it => u "- " ++ str_int (Z.of_nat j + 1)
                                     ++ u ") " ++ line it)
                      (take 1 [sample_item; negative_item; small_item]
                       ++ drop 2 [sample_item; negative_item; small_item])
       /\ button_keys log
          = map remove_key
              (seq 0 (length
                        (take 1 [sample_item; negative_item; small_item]
                         ++ drop 2 [sample_item; negative_item;
                                    small_item]))).
Proof.
  assert (Forall (fun k => exists v, en_dict !! k = Some v) item_list_keys)
    as Hkeys by (repeat constructor; eexists; vm_compute; reflexivity).
  assert (forall key : pystr,
             bool_decide (key = remove_key 0) = true <-> key = remove_key 0)
    as Hk by (intros key; apply bool_decide_eq_true).
  split; [exact Hkeys|]. split; [exact Hk|]. split; [simpl; lia|].
  apply (items_listing_remove sample_str_float
           (fun key => bool_decide (key = remove_key 0)) en_dict
           [sample_item; negative_item; small_item] 0 Hkeys Hk).
  simpl. lia.
Defined.

(** X12.  Whatever buttons are pressed, a run of the list of items ends
    without an error when the dictionary has the labels of the list: the
    list that it leaves is the list it started with, less some items and in
    the same order; there are no more buttons than items, and the keys of the
    buttons are pairwise distinct. *)
Theorem items_section_safe (str_float : float -> pystr)
    (pressed : pystr -> bool) (d : gmap string pystr) (items : list item) :
  Forall (fun k => exists v, d !! k = Some v) item_list_keys ->
  exists kept log,
    items_section str_float pressed d items = Ok (kept, log)
    /\ sublist kept items
    /\ (length (button_keys log) <= length items)%nat
    /\ NoDup (button_keys log).
Proof.
  intros Hkeys.
  destruct (items_section_pass str_float pressed d items Hkeys)
    as (ls & lr & line & Hs & Hline & Hrun).
  destruct (pass_sublist pressed (length items) items 0 ltac:(lia))
    as [Hsub Hshown].
  eexists. eexists. split; [exact Hrun|]. split; [exact Hsub|].
  assert (button_keys
            match items with
            | [] => []
            | _ :: _ => st_write (ls ++ u ":")
                          :: listing_calls lr line 0 (pass pressed 0 items).2
            end
          = map remove_key (seq 0 (length (pass pressed 0 items).2)))
    as Hkeys'.
  { destruct items as [|it rest]; [reflexivity|].
    change (st_write (ls ++ u ":")
              :: listing_calls lr line 0 (pass pressed 0 (it :: rest)).2)
      with ([st_write (ls ++ u ":")]
              ++ listing_calls lr line 0 (pass pressed 0 (it :: rest)).2).
    rewrite button_keys_app, listing_calls_keys. reflexivity. }
  rewrite Hkeys'. split; [|apply remove_keys_NoDup].
  rewrite length_map, length_seq. exact Hshown.
Qed.

Lemma items_section_safe_witness :
  Forall (fun k => exists v, en_dict !! k = Some v) item_list_keys
  /\ exists kept log,
       items_section sample_str_float (fun _ => true) en_dict
         [sample_item; negative_item; small_item] = Ok (kept, log)
       /\ sublist kept [sample_item; negative_item; small_item]
       /\ (length (button_keys log)
           <= length [sample_item; negative_item; small_item])%nat
       /\ NoDup (button_keys log).
Proof.
  assert (Forall (fun k => exists v, en_dict !! k = Some v) item_list_keys)
    as Hkeys by (repeat constructor; eexists; vm_compute; reflexivity).
  split; [exact Hkeys|].
  exact (items_section_safe sample_str_float (fun _ => true) en_dict
           [sample_item; negative_item; small_item] Hkeys).
Defined.

(** ** What the composer reads of the dictionary *)

(** X13.  Composing reads the dictionary at the keys that the record needs
    and nowhere else: two dictionaries that agree on these keys give the same
    result, whatever else they hold (the labels of the form, of the buttons,
    of an optional block that is absent). *)
Theorem create_reads_required_keys
    (reshape get_display : pystr -> pystr) (str_float : float -> pystr)
    (now : datetime) (data : invoice_data) (items : list item)
    (d1 d2 : gmap string pystr) (pc : pystr) (lang : string) :
  (forall k, In k (required_keys data) -> d1 !! k = d2 !! k) ->
  create_modern_invoice_pdf reshape get_display str_float now data items d1
    pc lang
  = create_modern_invoice_pdf reshape get_display str_float now data items
      d2 pc lang.
Proof.
  intros H.
  unfold create_modern_invoice_pdf, header_block, parties_block, items_block,
    payment_terms_block, delivery_terms_block, accept_checks_block, label,
    getitem.
  unfold required_keys in H.
  destruct (truthy (payment_terms data)), (truthy (delivery_terms data)),
    (accept_checks data);
    repeat match goal with
           | |- context [d1 !! ?k] => rewrite (H k) by (simpl; tauto)
           end;
    reflexivity.
Qed.

Lemma create_reads_required_keys_witness :
  (forall k, In k (required_keys sample_data) ->
             en_dict !! k
             = delete "payment_terms"%string
                 (<["invoice"%string := u "Bill"]> en_dict) !! k)
  /\ create_modern_invoice_pdf sample_reshape sample_get_display
       sample_str_float (sample_now 10 30 0) sample_data [sample_item]
       en_dict (u "#1a237e") "en"
     = create_modern_invoice_pdf sample_reshape sample_get_display
         sample_str_float (sample_now 10 30 0) sample_data [sample_item]
         (delete "payment_terms"%string
            (<["invoice"%string := u "Bill"]> en_dict))
         (u "#1a237e") "en".
Proof.
  assert (forall k, In k (required_keys sample_data) ->
                    en_dict !! k
                    = delete "payment_terms"%string
                        (<["invoice"%string := u "Bill"]> en_dict) !! k) as H.
  { intros k Hk. vm_compute in Hk.
    repeat (destruct Hk as [<-|Hk]; [vm_compute; reflexivity|]).
    destruct Hk. }
  split; [exact H|].
  exact (create_reads_required_keys sample_reshape sample_get_display
           sample_str_float (sample_now 10 30 0) sample_data [sample_item]
           en_dict
           (delete "payment_terms"%string
              (<["invoice"%string := u "Bill"]> en_dict))
           (u "#1a237e") "en"%string H).
Defined.

(** ** The download of a document *)



